(** * clean-resume: the image and PDF masking pipeline

    A shallow embedding of [app/services/image_masking.py] (class
    [ImageMasker]) and [app/services/pdf_masking.py] (class [PDFMasker]).

    Conventions of the embedding.
    - Python integers are [Z]; a rectangle is the 4-tuple [(x, y, w, h)].
    - A decoded pixel buffer (numpy array of shape (rows, cols, 3)) is a list
      of rows of BGR pixels; slicing follows the CPython/numpy rules for
      clamping and for negative indices.
    - Python floats are idealised as rationals ([Q]): [0.7] is [7#10], [0.8]
      is [8#10], true division is exact and [round] is exact round-half-even.
    - OpenCV, PIL, the detection model and PyMuPDF are external: they enter
      as section variables.  Calls to them are recorded in a log, and a
      raised exception is the result [None]. *)

From Stdlib Require Import ZArith QArith Qround List Bool Lia Lqa.
From stdpp Require Import gmap strings list.
Import ListNotations.

Local Open Scope Z_scope.

(** ** Data *)

Definition bytes := list Byte.byte.

(** [cv2.typing.Rect]: (x, y, width, height). *)
Definition Rect := (Z * Z * Z * Z)%type.

(** [rect[0]], [rect[1]], [rect[2]], [rect[3]]. *)
Definition rect_x (rect : Rect) : Z := rect.1.1.1.
Definition rect_y (rect : Rect) : Z := rect.1.1.2.
Definition rect_w (rect : Rect) : Z := rect.1.2.
Definition rect_h (rect : Rect) : Z := rect.2.

Definition pixel := (Z * Z * Z)%type.

(** [cv2.typing.MatLike]: rows of pixels. *)
Definition MatLike := list (list pixel).

(** The first two entries of [ndarray.shape]: (rows, columns). *)
Definition shape (m : MatLike) : Z * Z :=
  (Z.of_nat (length m),
   match m with [] => 0 | row :: _ => Z.of_nat (length row) end).

(** Every row has [cols] pixels, as in a numpy array. *)
Definition rectangular (cols : Z) (m : MatLike) : Prop :=
  Forall (fun row => Z.of_nat (length row) = cols) m.


(** [PIL.Image]: only what the pipeline reads of it. *)
Record Image := {
  size : Z * Z;        (* (width, height) *)
  mode : string;
  source : bytes
}.

(** [image.convert(mode)] keeps the size. *)
Definition convert (image : Image) (m : string) : Image :=
  {| size := size image; mode := m; source := source image |}.

(** [werkzeug.datastructures.FileStorage]: an uploaded file. *)
Record FileStorage := {
  filename : string;
  content_type : string;
  stream : bytes
}.

(** [file.read()]. *)
Definition read (file : FileStorage) : bytes := stream file.

(** One entry of the post-processed detection result: score, label and
    box [x0, y0, x1, y1]. *)
Definition prediction := (Q * Z * (Q * Q * Q * Q))%type.

(** ** Python primitives *)

(** The adjustment of one bound of [a[start:stop]] to a sequence of length
    [len]: a negative bound counts from the end, then the bound is clamped
    to [0, len]. *)
Definition slice_bound (len i : Z) : Z :=
  if i <? 0 then Z.max 0 (i + len) else Z.min i len.

(** [l[start:stop]]. *)
Definition py_slice {A} (l : list A) (start stop : Z) : list A :=
  let len := Z.of_nat (length l) in
  let lo := slice_bound len start in
  let hi := slice_bound len stop in
  firstn (Z.to_nat (hi - lo)) (skipn (Z.to_nat lo) l).

(** [a / b] on integers; [None] is ZeroDivisionError. *)
Definition py_truediv (a b : Z) : option Q :=
  if b =? 0 then None else Some (inject_Z a / inject_Z b)%Q.

(** [x > y] on rationals. *)
Definition Qgtb (x y : Q) : bool := negb (Qle_bool x y).

(** [int(round(q, 0))]: round half to even. *)
Definition py_round (q : Q) : Z :=
  let f := Qfloor q in
  match (q - inject_Z f ?= 1 # 2)%Q with
  | Lt => f
  | Gt => f + 1
  | Eq => if Z.even f then f else f + 1
  end.

(** ** Calls to the outside, and exceptions *)

Inductive event :=
| EvImdecode (data : bytes)
| EvImageOpen (data : bytes)
| EvDetectionModel (image : Image)
| EvDetectMultiScale (classifier : nat) (image : MatLike)
| EvImencode (extension : string)
| EvMaskData (data : bytes) (extension : string)
             (allow_full_mask should_draw_gizmos : bool)
| EvExtractImage (xref : Z)
| EvReplaceImage (xref : Z) (data : bytes).

(** A computation: the external calls it made, and its value unless an
    exception was raised. *)
Record io (A : Type) := IO { log : list event; result : option A }.
Arguments IO {A} _ _.
Arguments log {A} _.
Arguments result {A} _.

#[global] Instance io_ret : MRet io := fun A a => IO [] (Some a).

#[global] Instance io_bind : MBind io := fun A B f m =>
  match result m with
  | Some a => IO (log m ++ log (f a)) (result (f a))
  | None => IO (log m) None
  end.

Definition emit (e : event) : io unit := IO [e] (Some tt).

(** A value that may be missing; missing raises. *)
Definition lift {A} (o : option A) : io A := IO [] o.

(** [try: body / except Exception: handler]. *)
Definition try_except {A} (body handler : io A) : io A :=
  match result body with
  | Some _ => body
  | None => IO (log body ++ log handler) (result handler)
  end.

(** [for x in l: acc = body(acc, x)]. *)
Fixpoint for_each {A B} (body : A -> B -> io A) (l : list B) (acc : A) : io A :=
  match l with
  | [] => mret acc
  | x :: rest => acc' ← body acc x; for_each body rest acc'
  end.

(** ** ImageMasker *)

Module ImageMasker.

Section WithLibraries.

(** Tensors going into and coming out of the detection model. *)
Variables Inputs Outputs : Type.

(** A [cv2.CascadeClassifier], through [detectMultiScale]. *)
Definition CascadeClassifier := MatLike -> list Rect.

(** The image processor: the call itself and
    [post_process_object_detection] (threshold, target sizes). *)
Record ImageProcessor := {
  preprocess : Image -> Inputs;
  post_process_object_detection : Outputs -> Q -> Z * Z -> list prediction
}.

Record t := {
  cascade_classifiers : list CascadeClassifier;
  detection_model : Inputs -> option Outputs;
  image_processor : ImageProcessor;
  min_aspect : Q;
  max_aspect : Q;
  processing_threshold : Q
}.

(** [__init__]. *)
Definition init (classifiers : list CascadeClassifier)
    (model : Inputs -> option Outputs) (processor : ImageProcessor) : t :=
  {| cascade_classifiers := classifiers;
     detection_model := model;
     image_processor := processor;
     min_aspect := 1 # 2;
     max_aspect := 2 # 1;
     processing_threshold := 2 # 10 |}.

Variable self : t.

(** The loop of [detect_faces] from classifier number [i] on. *)
Fixpoint detect_faces_from (i : nat) (classifiers : list CascadeClassifier)
    (image : MatLike) : io (list Rect) :=
  match classifiers with
  | [] => mret []
  | classifier :: rest =>
      _ ← emit (EvDetectMultiScale i image);
      let faces_detected := classifier image in
      if 0 <? Z.of_nat (length faces_detected)
      then mret (map (fun '(x, y, w, h) => (x, y, w, h)) faces_detected)
      else detect_faces_from (S i) rest image
  end.

Definition detect_faces (image : MatLike) : io (list Rect) :=
  detect_faces_from 0 (cascade_classifiers self) image.

(** [image[rect[1]:rect[1] + rect[3], rect[0]:rect[0] + rect[2]]]. *)
Definition crop (image : MatLike) (rect : Rect) : MatLike :=
  let '(x, y, w, h) := rect in
  map (fun row => py_slice row x (x + w)) (py_slice image y (y + h)).

(** [(d[0] + rect[0], d[1] + rect[1], d[2], d[3])]. *)
Definition translate (rect d : Rect) : Rect :=
  let '(x, y, _, _) := rect in
  let '(dx, dy, dw, dh) := d in
  (dx + x, dy + y, dw, dh).

(** One round of the loop of [detect_maskable_areas]. *)
Definition detect_in_area (image : MatLike)
    (acc : list Rect * list Rect) (rect : Rect) : io (list Rect * list Rect) :=
  let '(areas, detected_gizmos) := acc in
  let partial_image := crop image rect in
  detected ← detect_faces partial_image;
  if 0 <? Z.of_nat (length detected)
  then mret (areas ++ [rect], detected_gizmos ++ map (translate rect) detected)
  else mret (areas, detected_gizmos).

Definition detect_maskable_areas (image : MatLike)
    (areas_of_interest : list Rect) : io (list Rect * list Rect) :=
  for_each (detect_in_area image) areas_of_interest ([], []).

(** [rect[2] / rect[3]] within [min_aspect, max_aspect]; not called by
    the pipeline. *)
Definition is_within_aspect_ratio (rect : Rect) : option bool :=
  let '(_, _, w, h) := rect in
  aspect_ratio ← py_truediv w h;
  Some (Qle_bool (min_aspect self) aspect_ratio
        && Qle_bool aspect_ratio (max_aspect self)).

(** [(rect[2] / bbox[0]) > 0.7 or (rect[3] / bbox[1]) > 0.7]; the second
    quotient is only computed when the first test fails. *)
Definition is_overlapping_full_image (rect : Rect) (image : Image)
    : option bool :=
  let bbox := size image in
  let '(_, _, w, h) := rect in
  rw ← py_truediv w (fst bbox);
  if Qgtb rw (7 # 10) then Some true
  else rh ← py_truediv h (snd bbox); Some (Qgtb rh (7 # 10)).

(** [box = [int(round(i, 0)) for i in box]] and
    [rect = (box[0], box[1], box[2] - box[0], box[3] - box[1])]. *)
Definition rect_of_box (box : Q * Q * Q * Q) : Rect :=
  let '(b0, b1, b2, b3) := box in
  let '(x0, y0, x1, y1) := (py_round b0, py_round b1, py_round b2, py_round b3) in
  (x0, y0, x1 - x0, y1 - y0).

(** One round of the loop over the predictions. *)
Definition keep_prediction (image : Image) (allow_full_mask : bool)
    (rects : list Rect) (p : prediction) : io (list Rect) :=
  let '(score, label, box) := p in
  let rect := rect_of_box box in
  keep ← (if allow_full_mask then mret true
          else overlapping ← lift (is_overlapping_full_image rect image);
               mret (negb overlapping));
  if keep : bool then mret (rects ++ [rect]) else mret rects.

Definition find_rects_of_interest (image : Image) (allow_full_mask : bool)
    : io (list Rect) :=
  let rects := [] in
  if allow_full_mask
  then mret (rects ++ [(0, 0, fst (size image), snd (size image))])
  else
    let image := convert image "RGB" in
    let inputs := preprocess (image_processor self) image in
    _ ← emit (EvDetectionModel image);
    outputs ← lift (detection_model self inputs);
    let target_sizes := (snd (size image), fst (size image)) in
    let results :=
      post_process_object_detection (image_processor self) outputs
        (processing_threshold self) target_sizes in
    for_each (keep_prediction image allow_full_mask) results rects.

(** [cv2.imdecode(buffer, cv2.IMREAD_COLOR)]; [None] is the Python [None]
    it returns for data it cannot decode. *)
Variable cv2_imdecode : bytes -> option MatLike.

(** [Image.open(BytesIO(data))]; [None] is the exception it raises. *)
Variable Image_open : bytes -> option Image.

(** [cv2.rectangle(img, pt1, pt2, color, thickness)], drawing in place:
    the buffer after the call. *)
Variable cv2_rectangle : MatLike -> Z * Z -> Z * Z -> Z * Z * Z -> Z -> MatLike.

(** [cv2.imencode(extension, mat)]; [None] is the exception it raises. *)
Variable cv2_imencode : string -> MatLike -> option bytes.

Definition mask_area (area : Rect) (image : MatLike) : MatLike :=
  let '(x, y, w, h) := area in
  cv2_rectangle image (x, y) (x + w, y + h) (0, 0, 0) (-1).

Definition mask_areas (areas : list Rect) (image : MatLike) : MatLike :=
  fold_left (fun image area => mask_area area image) areas image.

Definition draw_gizmos (areas : list Rect) (image : MatLike)
    (color : Z * Z * Z) : MatLike :=
  fold_left
    (fun image '(x, y, w, h) => cv2_rectangle image (x, y) (x + w, y + h) color 2)
    areas image.

(** [mask_data]. The decoded buffer may be [None]; it is first used by the
    crop in [detect_maskable_areas], or by [cv2.imencode] when there is
    nothing to crop, and both raise on [None] before any further external
    call: the buffer is demanded right after the proposals. *)
Definition mask_data (image_as_bytes : bytes) (extension : string)
    (allow_full_mask should_draw_gizmos : bool) : io (bytes * Z) :=
  _ ← emit (EvMaskData image_as_bytes extension allow_full_mask
              should_draw_gizmos);
  _ ← emit (EvImdecode image_as_bytes);
  let mat := cv2_imdecode image_as_bytes in
  _ ← emit (EvImageOpen image_as_bytes);
  image ← lift (Image_open image_as_bytes);
  areas_of_interest ← find_rects_of_interest image allow_full_mask;
  mat ← lift mat;
  '(areas, detected_faces) ← detect_maskable_areas mat areas_of_interest;
  let mat :=
    if should_draw_gizmos
    then
      let mat := draw_gizmos areas_of_interest mat (0, 0, 0) in
      let mat := draw_gizmos areas mat (255, 0, 0) in
      draw_gizmos detected_faces mat (0, 0, 255)
    else mask_areas areas mat in
  _ ← emit (EvImencode extension);
  encoded_result ← lift (cv2_imencode extension mat);
  mret (encoded_result, Z.of_nat (length areas)).

(** [mimetypes.guess_extension(type)]; [None] is the Python [None] it
    returns for a type it does not know. *)
Variable guess_extension : string -> option string.

(** [mask_file]. A missing guess is handed on as the empty string: the
    extension is read by [cv2.imencode] alone, which raises on [None] as it
    does on an extension without encoder. *)
Definition mask_file (file : FileStorage)
    (allow_full_mask should_draw_gizmos : bool) : io (bytes * Z) :=
  let guessed_extension := guess_extension (content_type file) in
  mask_data (read file) (default "" guessed_extension) allow_full_mask
    should_draw_gizmos.

End WithLibraries.

Arguments CascadeClassifier : clear implicits.
Arguments cascade_classifiers {Inputs Outputs} _.
Arguments detection_model {Inputs Outputs} _.
Arguments image_processor {Inputs Outputs} _.
Arguments processing_threshold {Inputs Outputs} _.
Arguments min_aspect {Inputs Outputs} _.
Arguments max_aspect {Inputs Outputs} _.
Arguments preprocess {Inputs Outputs} _.
Arguments post_process_object_detection {Inputs Outputs} _.
Arguments Build_ImageProcessor {Inputs Outputs} _ _.
Arguments init {Inputs Outputs} _ _ _.
Arguments detect_faces {Inputs Outputs} self image.
Arguments detect_in_area {Inputs Outputs} self image acc rect.
Arguments detect_maskable_areas {Inputs Outputs} self image areas_of_interest.
Arguments is_within_aspect_ratio {Inputs Outputs} self rect.
Arguments find_rects_of_interest {Inputs Outputs} self image allow_full_mask.
Arguments mask_data {Inputs Outputs} self cv2_imdecode Image_open cv2_rectangle
  cv2_imencode image_as_bytes extension allow_full_mask should_draw_gizmos.
Arguments mask_file {Inputs Outputs} self cv2_imdecode Image_open cv2_rectangle
  cv2_imencode guess_extension file allow_full_mask should_draw_gizmos.

End ImageMasker.

(** ** PDFMasker *)

Module PDFMasker.

(** What [extract_image(xref)] returns: the soft-mask reference (0 when
    there is none), the format and the raw bytes. *)
Record ImageObj := {
  obj_smask : Z;
  obj_ext : string;
  obj_image : bytes
}.

(** A page: its media box and the xrefs of [get_images(full=True)] (entry 0
    of each item), in enumeration order. *)
Record Page := {
  mediabox_width : Q;
  mediabox_height : Q;
  get_images : list Z
}.

(** An open document: its pages, and the image objects by xref. *)
Record Document := {
  pages : list Page;
  objects : gmap Z ImageObj
}.

(** [page.replace_image(xref, pixmap=...)]: the object at [xref] becomes the
    new image, wherever it is used. *)
Definition replace_image (doc : Document) (xref : Z) (pixmap : ImageObj)
    : Document :=
  {| pages := pages doc; objects := <[xref := pixmap]> (objects doc) |}.

Section WithLibraries.

Variables Inputs Outputs : Type.
Variable cv2_imdecode : bytes -> option MatLike.
Variable Image_open : bytes -> option Image.
Variable cv2_rectangle : MatLike -> Z * Z -> Z * Z -> Z * Z * Z -> Z -> MatLike.
Variable cv2_imencode : string -> MatLike -> option bytes.

(** [fitz.open(stream=..., filetype="pdf")]; [None] is the exception. *)
Variable fitz_open : bytes -> option Document.

(** [fitz.Pixmap(BytesIO(data))], as the image object it is stored as;
    [None] is the exception. *)
Variable fitz_Pixmap : bytes -> option ImageObj.

(** [pdf_document.tobytes()]. *)
Variable tobytes : Document -> bytes.

Record t := { image_masker : ImageMasker.t Inputs Outputs }.

Definition init (masker : ImageMasker.t Inputs Outputs) : t :=
  {| image_masker := masker |}.

Variable self : t.

(** [image_width > 0.8 * width and image_height > 0.8 * height]. *)
Definition is_overlapping_full_page (image : Image) (width height : Q) : bool :=
  let '(image_width, image_height) := size image in
  Qgtb (inject_Z image_width) ((8 # 10) * width)
  && Qgtb (inject_Z image_height) ((8 # 10) * height).

(** The soft-mask test of [mask_data]. *)
Definition skipped (image_obj : ImageObj) : bool :=
  negb (obj_smask image_obj =? 0)
  && negb (bool_decide (obj_ext image_obj = "png")
           || bool_decide (obj_ext image_obj = "gif")).

(** One round of the loop over the images of a page. *)
Definition mask_embedded_image (should_draw_gizmos : bool)
    (page_width page_height : Q) (pdf_document : Document) (xref : Z)
    : io Document :=
  _ ← emit (EvExtractImage xref);
  image_obj ← lift (objects pdf_document !! xref);
  if skipped image_obj then mret pdf_document
  else
    let image_bytes := obj_image image_obj in
    _ ← emit (EvImageOpen image_bytes);
    image ← lift (Image_open image_bytes);
    let overlapping := is_overlapping_full_page image page_width page_height in
    '(result, amount_of_masks) ←
      ImageMasker.mask_data (image_masker self) cv2_imdecode Image_open
        cv2_rectangle cv2_imencode image_bytes ".png" (negb overlapping)
        should_draw_gizmos;
    if 0 <? amount_of_masks
    then
      pixmap ← lift (fitz_Pixmap result);
      _ ← emit (EvReplaceImage xref result);
      mret (replace_image pdf_document xref pixmap)
    else mret pdf_document.

(** One round of the loop over the pages. *)
Definition mask_page (should_draw_gizmos : bool) (pdf_document : Document)
    (page_number : nat) : io Document :=
  page ← lift (pages pdf_document !! page_number);
  let page_width := mediabox_width page in
  let page_height := mediabox_height page in
  let image_list := get_images page in
  for_each (mask_embedded_image should_draw_gizmos page_width page_height)
    image_list pdf_document.

Definition mask_data (pdf_as_bytes : bytes) (should_draw_gizmos : bool)
    : io bytes :=
  pdf_document ← lift (fitz_open pdf_as_bytes);
  pdf_document ←
    for_each (mask_page should_draw_gizmos)
      (seq 0 (length (pages pdf_document))) pdf_document;
  mret (tobytes pdf_document).

Definition mask_file (file : FileStorage) (should_draw_gizmos : bool) : io bytes :=
  mask_data (read file) should_draw_gizmos.

End WithLibraries.

Arguments image_masker {Inputs Outputs} _.
Arguments init {Inputs Outputs} _.
Arguments mask_embedded_image {Inputs Outputs} cv2_imdecode Image_open
  cv2_rectangle cv2_imencode fitz_Pixmap self should_draw_gizmos page_width
  page_height pdf_document xref.
Arguments mask_page {Inputs Outputs} cv2_imdecode Image_open cv2_rectangle
  cv2_imencode fitz_Pixmap self should_draw_gizmos pdf_document page_number.
Arguments mask_data {Inputs Outputs} cv2_imdecode Image_open cv2_rectangle
  cv2_imencode fitz_open fitz_Pixmap tobytes self pdf_as_bytes
  should_draw_gizmos.
Arguments mask_file {Inputs Outputs} cv2_imdecode Image_open cv2_rectangle
  cv2_imencode fitz_open fitz_Pixmap tobytes self file should_draw_gizmos.

End PDFMasker.

(** ** The routes of [app/routes/masking.py] *)

Module masking.

(** What a handler returns: [jsonify(...)] with its status, or
    [send_file(...)] as an attachment. The message [None] is the text of a
    caught exception, which the embedding does not carry. *)
Inductive Response :=
| JsonResponse (success : bool) (message : option string) (code status : Z)
| FileResponse (data : bytes) (mimetype download_name : string).

(** [flask.request]: the uploaded files and the query arguments, each with
    the first value of a key, which is all that [in], [[key]] and [get]
    read. *)
Record Request := {
  files : gmap string FileStorage;
  args : gmap string string
}.

Definition ALLOWED_IMAGE_TYPES : gset string :=
  {[ "image/jpeg"; "image/png"; "image/gif" ]}.

(** [bool(value)] on a string; it never raises. *)
Definition py_bool (value : string) : option bool :=
  Some (negb (bool_decide (value = ""))).

(** [args.get(key, default=..., type=...)]: the default for a missing key
    and for a value the conversion rejects. *)
Definition args_get {A} (args : gmap string string) (key : string)
    (default : A) (type : string -> option A) : A :=
  match args !! key with
  | None => default
  | Some rv => match type rv with Some v => v | None => default end
  end.

Section WithLibraries.

Variables Inputs Outputs : Type.
Variable cv2_imdecode : bytes -> option MatLike.
Variable Image_open : bytes -> option Image.
Variable cv2_rectangle : MatLike -> Z * Z -> Z * Z -> Z * Z * Z -> Z -> MatLike.
Variable cv2_imencode : string -> MatLike -> option bytes.
Variable guess_extension : string -> option string.
Variable fitz_open : bytes -> option PDFMasker.Document.
Variable fitz_Pixmap : bytes -> option PDFMasker.ImageObj.
Variable tobytes : PDFMasker.Document -> bytes.

(** The classifiers, the model and the processor loaded by [app]. *)
Variable cascade_classifiers : list (ImageMasker.CascadeClassifier).
Variable detection_model : Inputs -> option Outputs.
Variable image_processor : ImageMasker.ImageProcessor Inputs Outputs.

Definition mask_pdf (request : Request) : io Response :=
  if bool_decide (files request !! "file" = None)
     || bool_decide (filename <$> files request !! "file" = Some "")
  then mret (JsonResponse false (Some "No file uploaded.") 400 400)
  else
    file ← lift (files request !! "file");
    if negb (bool_decide (content_type file = "application/pdf"))
    then mret (JsonResponse false
                 (Some "Unsupported file type. Only PDF files are allowed.")
                 415 415)
    else
      let gizmos := args_get (args request) "gizmos" false py_bool in
      let masker :=
        PDFMasker.init
          (ImageMasker.init cascade_classifiers detection_model image_processor) in
      result ←
        PDFMasker.mask_file cv2_imdecode Image_open cv2_rectangle cv2_imencode
          fitz_open fitz_Pixmap tobytes masker file gizmos;
      mret (FileResponse result (content_type file) (filename file)).

Definition mask_image (request : Request) : io Response :=
  if bool_decide (files request !! "file" = None)
     || bool_decide (filename <$> files request !! "file" = Some "")
  then mret (JsonResponse false (Some "No file uploaded.") 400 400)
  else
    file ← lift (files request !! "file");
    if negb (bool_decide (content_type file ∈ ALLOWED_IMAGE_TYPES))
    then mret (JsonResponse false
                 (Some "Unsupported file type. Only JPEG, PNG, and GIF images are allowed.")
                 415 415)
    else
      let gizmos := args_get (args request) "gizmos" false py_bool in
      outcome ←
        try_except
          (let masker :=
             ImageMasker.init cascade_classifiers detection_model
               image_processor in
           '(result, _) ←
             ImageMasker.mask_file masker cv2_imdecode Image_open cv2_rectangle
               cv2_imencode guess_extension file false gizmos;
           mret (inl result))
          (mret (inr (JsonResponse false None 500 500)));
      match outcome with
      | inr response => mret response
      | inl result =>
          mret (FileResponse result (content_type file) (filename file))
      end.

End WithLibraries.

Arguments mask_pdf {Inputs Outputs} cv2_imdecode Image_open cv2_rectangle
  cv2_imencode fitz_open fitz_Pixmap tobytes cascade_classifiers
  detection_model image_processor request.
Arguments mask_image {Inputs Outputs} cv2_imdecode Image_open cv2_rectangle
  cv2_imencode guess_extension cascade_classifiers detection_model
  image_processor request.

End masking.

(** ** Vocabulary of the statements *)

(** The log of consulting the classifiers number [i] to [i + n - 1] on
    [image], in that order. *)
Definition consulted_from (i n : nat) (image : MatLike) : list event :=
  map (fun j => EvDetectMultiScale j image) (seq i n).

Definition consulted (n : nat) (image : MatLike) : list event :=
  consulted_from 0 n image.

(** The matches of the first classifier that has any. *)
Fixpoint first_match (classifiers : list (MatLike -> list Rect))
    (image : MatLike) : list Rect :=
  match classifiers with
  | [] => []
  | classifier :: rest =>
      match classifier image with
      | [] => first_match rest image
      | faces => faces
      end
  end.




(** Whether the verifier confirms a feature in the crop of [image] to
    [rect], and the features it confirms there, in full-image coordinates. *)
Definition confirmed (classifiers : list (MatLike -> list Rect))
    (image : MatLike) (rect : Rect) : bool :=
  0 <? Z.of_nat (length (first_match classifiers (ImageMasker.crop image rect))).

Definition features (classifiers : list (MatLike -> list Rect))
    (image : MatLike) (rect : Rect) : list Rect :=
  map (ImageMasker.translate rect)
    (first_match classifiers (ImageMasker.crop image rect)).


Definition within_70_percentb (rect : Rect) (sz : Z * Z) : bool :=
  Qle_bool (inject_Z (rect_w rect)) ((7 # 10) * inject_Z sz.1)
  && Qle_bool (inject_Z (rect_h rect)) ((7 # 10) * inject_Z sz.2).

(** The rectangle of a prediction. *)
Definition prediction_rect (p : prediction) : Rect :=
  ImageMasker.rect_of_box p.2.

(** The calls the masking engine makes once it is entered: decoding,
    detection and encoding; no call to itself, none to the document. *)
Definition engine_event (e : event) : Prop :=
  match e with
  | EvMaskData _ _ _ _ | EvExtractImage _ | EvReplaceImage _ _ => False
  | _ => True
  end.

Definition is_model_call (e : event) : Prop :=
  match e with EvDetectionModel _ => True | _ => False end.





(** The integer [z] is within half a pixel of the coordinate [q]. *)
Definition half_pixel (z : Z) (q : Q) : Prop :=
  (q - (1 # 2) <= inject_Z z /\ inject_Z z <= q + (1 # 2))%Q.

(** The buffer that [mask_data] encodes: outlines of the three sets of
    rectangles when gizmos are drawn, the confirmed areas filled otherwise. *)
Definition painted
    (cv2_rectangle : MatLike -> Z * Z -> Z * Z -> Z * Z * Z -> Z -> MatLike)
    (classifiers : list (MatLike -> list Rect)) (should_draw_gizmos : bool)
    (areas_of_interest : list Rect) (mat : MatLike) : MatLike :=
  let areas := List.filter (confirmed classifiers mat) areas_of_interest in
  let detected_faces := flat_map (features classifiers mat) areas_of_interest in
  if should_draw_gizmos
  then ImageMasker.draw_gizmos cv2_rectangle detected_faces
         (ImageMasker.draw_gizmos cv2_rectangle areas
            (ImageMasker.draw_gizmos cv2_rectangle areas_of_interest mat (0, 0, 0))
            (255, 0, 0))
         (0, 0, 255)
  else ImageMasker.mask_areas cv2_rectangle areas mat.

(** Calls that only happen once the image was decoded by both libraries. *)
Definition is_classifier_or_encoder_call (e : event) : Prop :=
  match e with EvDetectMultiScale _ _ | EvImencode _ => True | _ => False end.

Definition is_replacement (e : event) : Prop :=
  match e with EvReplaceImage _ _ => True | _ => False end.

Definition is_extraction (e : event) : Prop :=
  match e with EvExtractImage _ => True | _ => False end.

(** The xrefs of the images shown on the pages of a document. *)
Definition shown (doc : PDFMasker.Document) : list Z :=
  flat_map PDFMasker.get_images (PDFMasker.pages doc).

(** What the loop over the pages keeps of the document it started from:
    the pages, the set of xrefs, and the objects that no page shows. *)
Definition kept (pdf_document d : PDFMasker.Document) : Prop :=
  PDFMasker.pages d = PDFMasker.pages pdf_document
  /\ dom (PDFMasker.objects d) = dom (PDFMasker.objects pdf_document)
  /\ forall xref : Z, xref ∉ shown pdf_document ->
       PDFMasker.objects d !! xref = PDFMasker.objects pdf_document !! xref.

(** ** Instances used to run the pipeline on concrete inputs *)

(** A detector that reports the whole sub-image when it holds a pixel. *)
Definition whole_image_detector : MatLike -> list Rect := fun sub =>
  let '(rows, cols) := shape sub in
  if (0 <? rows) && (0 <? cols) then [(0, 0, cols, rows)] else [].

(** A detector that never reports anything. *)
Definition blind_detector : MatLike -> list Rect := fun _ => [].

(** A processor and a model whose post-processed result is [results]. *)
Definition fixed_processor (results : list prediction)
    : ImageMasker.ImageProcessor unit unit :=
  {| ImageMasker.preprocess := fun _ => tt;
     ImageMasker.post_process_object_detection := fun _ _ _ => results |}.

Definition demo_masker (classifiers : list (MatLike -> list Rect))
    (results : list prediction) : ImageMasker.t unit unit :=
  ImageMasker.init classifiers (fun _ => Some tt) (fixed_processor results).

(** An image of the given size. *)
Definition demo_image (width height : Z) : Image :=
  {| size := (width, height); mode := "RGB"; source := [] |}.

(** A buffer of [rows] by [cols] pixels, each pixel holding its position. *)
Definition demo_mat (rows cols : nat) : MatLike :=
  map (fun r => map (fun c => (Z.of_nat r, Z.of_nat c, 0)) (seq 0 cols))
    (seq 0 rows).

(** A decoder for every non-empty input: a buffer of 2 rows and 3 columns,
    and the image of the same size. *)
Definition demo_imdecode : bytes -> option MatLike := fun data =>
  match data with [] => None | _ => Some (demo_mat 2 3) end.

Definition demo_Image_open : bytes -> option Image := fun data =>
  match data with
  | [] => None
  | _ => Some {| size := (3, 2); mode := "RGB"; source := data |}
  end.

(** A rectangle drawn on the pixels between the corners [pt1] and [pt2]:
    filled for a negative thickness, its border otherwise. *)
Definition demo_rectangle (m : MatLike) (pt1 pt2 : Z * Z) (color : Z * Z * Z)
    (thickness : Z) : MatLike :=
  imap (fun r row =>
    imap (fun c px =>
      let '(x, y) := (Z.of_nat c, Z.of_nat r) in
      let within := (pt1.1 <=? x) && (x <=? pt2.1) && (pt1.2 <=? y) && (y <=? pt2.2) in
      let border := (x =? pt1.1) || (x =? pt2.1) || (y =? pt1.2) || (y =? pt2.2) in
      if within && ((thickness <? 0) || border) then color else px) row) m.

(** An encoder for the extension .png: one byte per pixel, zero for black. *)
Definition demo_imencode (extension : string) (m : MatLike) : option bytes :=
  if bool_decide (extension = ".png")
  then Some (map (fun px : pixel =>
                    if bool_decide (px = (0, 0, 0)) then Byte.x00 else Byte.xff)
               (concat m))
  else None.

(** A pixmap for every input, stored as a PNG without soft mask. *)
Definition demo_Pixmap : bytes -> option PDFMasker.ImageObj := fun data =>
  Some {| PDFMasker.obj_smask := 0; PDFMasker.obj_ext := "png";
          PDFMasker.obj_image := data |}.

Definition demo_pdf_masker : PDFMasker.t unit unit :=
  PDFMasker.init (demo_masker [whole_image_detector] []).

(** A JPEG with a soft mask at xref 7 and a JPEG without at xref 8. *)
Definition demo_soft_masked : PDFMasker.ImageObj :=
  {| PDFMasker.obj_smask := 9; PDFMasker.obj_ext := "jpeg";
     PDFMasker.obj_image := [Byte.x01] |}.

Definition demo_plain : PDFMasker.ImageObj :=
  {| PDFMasker.obj_smask := 0; PDFMasker.obj_ext := "jpeg";
     PDFMasker.obj_image := [Byte.x02] |}.

(** One page of 100 by 100 points showing both images. *)
Definition demo_document : PDFMasker.Document :=
  {| PDFMasker.pages :=
       [{| PDFMasker.mediabox_width := 100; PDFMasker.mediabox_height := 100;
           PDFMasker.get_images := [7; 8] |}];
     PDFMasker.objects := <[7 := demo_soft_masked]> (<[8 := demo_plain]> ∅) |}.

Definition demo_fitz_open : bytes -> option PDFMasker.Document := fun _ =>
  Some demo_document.

(** The bytes of the image objects, by increasing xref. *)
Definition demo_tobytes (doc : PDFMasker.Document) : bytes :=
  concat (map (fun xref => from_option PDFMasker.obj_image []
                             (PDFMasker.objects doc !! xref)) [7; 8]).

(** A masker whose detection model raises. *)
Definition failing_masker (classifiers : list (MatLike -> list Rect))
    : ImageMasker.t unit unit :=
  ImageMasker.init classifiers (fun _ => None) (fixed_processor []).

(** The extensions of the three image types of the routes. *)
Definition demo_guess_extension (type : string) : option string :=
  if bool_decide (type = "image/jpeg") then Some ".jpg"
  else if bool_decide (type = "image/png") then Some ".png"
  else if bool_decide (type = "image/gif") then Some ".gif"
  else None.

Definition demo_upload (name type : string) (data : bytes) : FileStorage :=
  {| filename := name; content_type := type; stream := data |}.

(** A request uploading [file], with the query arguments [query]. *)
Definition demo_request (file : FileStorage) (query : gmap string string)
    : masking.Request :=
  {| masking.files := {[ "file" := file ]}; masking.args := query |}.

(** A page showing the images 8, 9 and 7; the bytes of image 9 are empty,
    which no decoder of these instances accepts. *)
Definition demo_broken_document : PDFMasker.Document :=
  {| PDFMasker.pages :=
       [{| PDFMasker.mediabox_width := 100; PDFMasker.mediabox_height := 100;
           PDFMasker.get_images := [8; 9; 7] |}];
     PDFMasker.objects :=
       <[7 := demo_soft_masked]>
         (<[8 := demo_plain]>
            (<[9 := {| PDFMasker.obj_smask := 0; PDFMasker.obj_ext := "jpeg";
                       PDFMasker.obj_image := [] |}]> ∅)) |}.

(** A page showing the soft-masked JPEG alone. *)
Definition demo_skipped_document : PDFMasker.Document :=
  {| PDFMasker.pages :=
       [{| PDFMasker.mediabox_width := 100; PDFMasker.mediabox_height := 100;
           PDFMasker.get_images := [7] |}];
     PDFMasker.objects := <[7 := demo_soft_masked]> ∅ |}.

(** * Properties *)

(** ** The computation monad *)

Lemma io_eta {A} (m : io A) : IO (log m) (result m) = m.
Proof. by destruct m. Qed.

Lemma bind_ret {A B} (a : A) (k : A -> io B) : (mret a ≫= k) = k a.
Proof. unfold mbind, io_bind, mret, io_ret. simpl. apply io_eta. Qed.

Lemma bind_emit {B} (e : event) (k : unit -> io B) :
  (emit e ≫= k) = IO (e :: log (k tt)) (result (k tt)).
Proof. reflexivity. Qed.

Lemma bind_lift_Some {A B} (a : A) (k : A -> io B) : (lift (Some a) ≫= k) = k a.
Proof. apply (bind_ret a k). Qed.

Lemma bind_lift_None {A B} (k : A -> io B) : (lift None ≫= k) = IO [] None.
Proof. reflexivity. Qed.

Lemma bind_result {A B} (m : io A) (k : A -> io B) :
  result (m ≫= k) = result m ≫= (fun a => result (k a)).
Proof. unfold mbind at 1, io_bind. by destruct (result m). Qed.

(** ** Slices *)


Lemma slice_bound_nonneg len i : 0 <= i -> slice_bound len i = Z.min i len.
Proof. unfold slice_bound. destruct (Z.ltb_spec i 0); lia. Qed.




(** [l[-1:4]], [l[2:10]], [l[3:1]] and [l[-9:2]] on a list of four. *)
Example py_slice_on_four :
  py_slice [10; 11; 12; 13] (-1) 4 = [13]
  /\ py_slice [10; 11; 12; 13] 2 10 = [12; 13]
  /\ py_slice [10; 11; 12; 13] 3 1 = []
  /\ py_slice [10; 11; 12; 13] (-9) 2 = [10; 11].
Proof. by repeat split. Qed.


(** ** The feature verifier *)

Lemma retuple_id (l : list Rect) :
  map (fun '(x, y, w, h) => (x, y, w, h)) l = l.
Proof.
  induction l as [|[[[x y] w] h] l IH]; simpl; [done | by rewrite IH].
Qed.

Lemma detect_faces_from_spec i classifiers image :
  exists (n : nat) (faces : list Rect),
    ImageMasker.detect_faces_from i classifiers image
    = IO (consulted_from i n image) (Some faces)
    /\ ((faces = [] /\ n = length classifiers
         /\ Forall (fun c => c image = []) classifiers)
        \/ (exists (k : nat) (c : MatLike -> list Rect),
              n = S k /\ classifiers !! k = Some c
              /\ faces = c image /\ faces <> []
              /\ Forall (fun c' => c' image = []) (take k classifiers))).
Proof.
  revert i. induction classifiers as [|c rest IH]; intros i.
  - exists 0%nat, []. split; [done|]. left. by repeat split.
  - cbn [ImageMasker.detect_faces_from]. rewrite bind_emit.
    destruct (c image) as [|d faces] eqn:Hc.
    + simpl. destruct (IH (S i)) as (n & fs & Heq & Hcase).
      exists (S n), fs. rewrite Heq. split; [done|].
      destruct Hcase as [(-> & -> & Hall) | (k & c' & -> & Hk & -> & Hne & Hall)].
      * left. split; [done|]. split; [done|]. by constructor.
      * right. exists (S k), c'. do 4 (split; [done|]). simpl. by constructor.
    + replace (0 <? Z.of_nat (length (d :: faces))) with true
        by (symmetry; apply Z.ltb_lt; simpl; lia).
      exists 1%nat, (d :: faces). rewrite retuple_id. split; [done|].
      right. exists 0%nat, c. rewrite Hc. by do 4 (split; [done|]).
Qed.

Lemma detect_faces_from_result i classifiers image :
  result (ImageMasker.detect_faces_from i classifiers image)
  = Some (first_match classifiers image).
Proof.
  revert i. induction classifiers as [|c rest IH]; intros i; [done|].
  cbn [ImageMasker.detect_faces_from]. rewrite bind_emit. simpl.
  destruct (c image) as [|d faces] eqn:Hc; [apply IH|].
  replace (0 <? Z.of_nat (length (d :: faces))) with true
    by (symmetry; apply Z.ltb_lt; simpl; lia).
  by rewrite retuple_id.
Qed.

(** Three classifiers, the first of them blind: the second one matches and
    the third is not consulted. *)
Example detect_faces_second_classifier :
  ImageMasker.detect_faces
    (demo_masker [blind_detector; whole_image_detector; whole_image_detector] [])
    (demo_mat 1 2)
  = IO [EvDetectMultiScale 0 (demo_mat 1 2); EvDetectMultiScale 1 (demo_mat 1 2)]
       (Some [(0, 0, 2, 1)]).
Proof. reflexivity. Qed.

Section Verifier.

Context {Inputs Outputs : Type} (self : ImageMasker.t Inputs Outputs).

(** C4. [detect_faces] consults the classifiers in list order: it returns
    the matches of the first classifier that has any, as they are, after
    consulting exactly the classifiers up to that one; when no classifier
    has a match it has consulted them all and returns the empty list. *)
Theorem detect_faces_first_match (image : MatLike) :
  exists (n : nat) (faces : list Rect),
    ImageMasker.detect_faces self image = IO (consulted n image) (Some faces)
    /\ ((faces = []
         /\ n = length (ImageMasker.cascade_classifiers self)
         /\ Forall (fun c => c image = []) (ImageMasker.cascade_classifiers self))
        \/ (exists (k : nat) (c : MatLike -> list Rect),
              n = S k
              /\ ImageMasker.cascade_classifiers self !! k = Some c
              /\ faces = c image /\ faces <> []
              /\ Forall (fun c' => c' image = [])
                   (take k (ImageMasker.cascade_classifiers self)))).
Proof. apply detect_faces_from_spec. Qed.

End Verifier.

(** ** Verification of the areas of interest *)



Section Verification.

Context {Inputs Outputs : Type} (self : ImageMasker.t Inputs Outputs).

Local Abbreviation classifiers := (ImageMasker.cascade_classifiers self).

Lemma detect_faces_result image :
  result (ImageMasker.detect_faces self image)
  = Some (first_match classifiers image).
Proof. apply detect_faces_from_result. Qed.

Lemma detect_in_area_result image areas gizmos rect :
  result (ImageMasker.detect_in_area self image (areas, gizmos) rect)
  = Some (if confirmed classifiers image rect
          then (areas ++ [rect], gizmos ++ features classifiers image rect)
          else (areas, gizmos)).
Proof.
  unfold ImageMasker.detect_in_area. rewrite bind_result, detect_faces_result.
  simpl. unfold confirmed, features.
  by destruct (0 <? _).
Qed.

Lemma for_each_detect_result image areas_of_interest areas gizmos :
  result (for_each (ImageMasker.detect_in_area self image) areas_of_interest
            (areas, gizmos))
  = Some (areas ++ List.filter (confirmed classifiers image) areas_of_interest,
          gizmos ++ flat_map (features classifiers image) areas_of_interest).
Proof.
  revert areas gizmos.
  induction areas_of_interest as [|rect rest IH]; intros areas gizmos.
  - simpl. by rewrite !app_nil_r.
  - cbn [for_each]. rewrite bind_result, detect_in_area_result. simpl.
    destruct (confirmed classifiers image rect) eqn:Hc; rewrite IH.
    + by rewrite <- !app_assoc.
    + unfold confirmed in Hc. unfold features at 2.
      destruct (first_match _ _); [done|].
      apply Z.ltb_ge in Hc. simpl in Hc. lia.
Qed.

Lemma detect_maskable_areas_result image areas_of_interest :
  result (ImageMasker.detect_maskable_areas self image areas_of_interest)
  = Some (List.filter (confirmed classifiers image) areas_of_interest,
          flat_map (features classifiers image) areas_of_interest).
Proof. apply for_each_detect_result. Qed.

(** C5. [detect_maskable_areas] returns, and every maskable area it
    returns is one of the areas of interest it was given. *)
Theorem maskable_areas_were_proposed image areas_of_interest :
  exists areas detected_gizmos : list Rect,
    result (ImageMasker.detect_maskable_areas self image areas_of_interest)
    = Some (areas, detected_gizmos)
    /\ areas ⊆ areas_of_interest.
Proof.
  eexists _, _. split; [apply detect_maskable_areas_result|].
  intros rect Hin. apply list_elem_of_In in Hin. apply list_elem_of_In.
  apply filter_In in Hin. tauto.
Qed.





End Verification.








(** ** The region proposer *)


Lemma quotient_at_most (a b : Z) (q : Q) :
  0 < b ->
  Qle_bool (inject_Z a / inject_Z b) q = Qle_bool (inject_Z a) (q * inject_Z b).
Proof.
  intros Hb. apply eq_true_iff_eq. rewrite !Qle_bool_iff.
  destruct b as [|b|b]; try lia. destruct q as [n d].
  unfold Qle, Qdiv, Qmult, Qinv, inject_Z. simpl. nia.
Qed.

Lemma is_overlapping_full_image_spec rect image :
  0 < (size image).1 -> 0 < (size image).2 ->
  ImageMasker.is_overlapping_full_image rect image
  = Some (negb (within_70_percentb rect (size image))).
Proof.
  intros Hw Hh. unfold ImageMasker.is_overlapping_full_image, py_truediv.
  destruct rect as [[[x y] w] h]. unfold within_70_percentb, rect_w, rect_h.
  simpl.
  destruct (Z.eqb_spec (size image).1 0) as [|_]; [lia|].
  destruct (Z.eqb_spec (size image).2 0) as [|_]; [lia|].
  simpl. unfold Qgtb. rewrite !quotient_at_most by done.
  by destruct (Qle_bool (inject_Z w) _).
Qed.

Lemma keep_prediction_result image rects p :
  0 < (size image).1 -> 0 < (size image).2 ->
  result (ImageMasker.keep_prediction image false rects p)
  = Some (if within_70_percentb (prediction_rect p) (size image)
          then rects ++ [prediction_rect p] else rects).
Proof.
  intros Hw Hh. destruct p as [[score label] box].
  unfold ImageMasker.keep_prediction, prediction_rect.
  rewrite !bind_result. simpl.
  rewrite is_overlapping_full_image_spec by done. simpl.
  by destruct (within_70_percentb _ _).
Qed.

Lemma for_each_keep_result image results rects :
  0 < (size image).1 -> 0 < (size image).2 ->
  result (for_each (ImageMasker.keep_prediction image false) results rects)
  = Some (rects ++ List.filter (fun rect => within_70_percentb rect (size image))
                     (map prediction_rect results)).
Proof.
  intros Hw Hh. revert rects.
  induction results as [|p rest IH]; intros rects.
  - simpl. by rewrite app_nil_r.
  - cbn [for_each]. rewrite bind_result, keep_prediction_result by done. simpl.
    destruct (within_70_percentb _ _); rewrite IH; [|done].
    by rewrite <- app_assoc.
Qed.

Section Proposer.

Context {Inputs Outputs : Type} (self : ImageMasker.t Inputs Outputs).


End Proposer.

(** On a 10 by 10 image the rectangle of width 7 is kept (exactly 70%), the
    rectangle of width 8 is rejected, and box coordinates are rounded half
    to even. *)
Example find_rects_of_interest_at_70_percent :
  result (ImageMasker.find_rects_of_interest
            (demo_masker []
               [(9 # 10, 1%Z, (0, 0, 7, 5)); (9 # 10, 1%Z, (0, 0, 8, 5));
                (1 # 2, 1%Z, (1 # 2, 3 # 2, 5 # 2, 7 # 2))]%Q)
            (demo_image 10 10) false)
  = Some [(0, 0, 7, 5); (0, 2, 2, 2)].
Proof. reflexivity. Qed.


(** ** The masking engine *)

Section Masking.

Context {Inputs Outputs : Type} (self : ImageMasker.t Inputs Outputs).
Variable cv2_imdecode : bytes -> option MatLike.
Variable Image_open : bytes -> option Image.
Variable cv2_rectangle : MatLike -> Z * Z -> Z * Z -> Z * Z * Z -> Z -> MatLike.
Variable cv2_imencode : string -> MatLike -> option bytes.

Local Abbreviation mask_data :=
  (ImageMasker.mask_data self cv2_imdecode Image_open cv2_rectangle cv2_imencode).

(** What a returned count is: the number of areas of interest in which the
    verifier confirms a feature. *)
Lemma mask_data_count image_as_bytes extension allow_full_mask should_draw_gizmos
    encoded amount :
  result (mask_data image_as_bytes extension allow_full_mask should_draw_gizmos)
  = Some (encoded, amount) ->
  exists image areas_of_interest mat,
    Image_open image_as_bytes = Some image
    /\ result (ImageMasker.find_rects_of_interest self image allow_full_mask)
       = Some areas_of_interest
    /\ cv2_imdecode image_as_bytes = Some mat
    /\ amount
       = Z.of_nat (length (List.filter
                             (confirmed (ImageMasker.cascade_classifiers self) mat)
                             areas_of_interest)).
Proof.
  unfold ImageMasker.mask_data. rewrite !bind_emit. cbn [result].
  rewrite bind_result. cbn [lift result].
  destruct (Image_open image_as_bytes) as [image|] eqn:Himage; [|done].
  cbn [mbind option_bind].
  rewrite bind_result.
  destruct (result (ImageMasker.find_rects_of_interest self image allow_full_mask))
    as [areas_of_interest|] eqn:Haoi; [|done]. cbn [mbind option_bind].
  rewrite bind_result. cbn [lift result].
  destruct (cv2_imdecode image_as_bytes) as [mat|] eqn:Hmat; [|done].
  cbn [mbind option_bind].
  rewrite bind_result, detect_maskable_areas_result. cbn [mbind option_bind].
  rewrite bind_emit. cbn [result]. rewrite bind_result. cbn [lift result].
  destruct (cv2_imencode extension _) as [encoded'|]; [|done].
  cbn. intros [= _ <-]. by eexists _, _, _.
Qed.

(** C10. The count returned by [mask_data] does not depend on
    [should_draw_gizmos]: on the same bytes, extension and [allow_full_mask],
    the call drawing gizmos and the call masking return the same count. *)
Theorem count_independent_of_gizmos image_as_bytes extension allow_full_mask
    encoded_gizmos amount_gizmos encoded_masked amount_masked :
  result (mask_data image_as_bytes extension allow_full_mask true)
  = Some (encoded_gizmos, amount_gizmos) ->
  result (mask_data image_as_bytes extension allow_full_mask false)
  = Some (encoded_masked, amount_masked) ->
  amount_gizmos = amount_masked.
Proof.
  intros (image & aoi & mat & Himage & Haoi & Hmat & ->)%mask_data_count
         (image' & aoi' & mat' & Himage' & Haoi' & Hmat' & ->)%mask_data_count.
  congruence.
Qed.

End Masking.

Lemma count_independent_of_gizmos_witness :
  exists (encoded_gizmos : bytes) (amount_gizmos : Z)
         (encoded_masked : bytes) (amount_masked : Z),
    result (ImageMasker.mask_data (demo_masker [whole_image_detector] [])
              demo_imdecode demo_Image_open demo_rectangle demo_imencode
              [Byte.x01] ".png" true true)
    = Some (encoded_gizmos, amount_gizmos)
    /\ result (ImageMasker.mask_data (demo_masker [whole_image_detector] [])
                 demo_imdecode demo_Image_open demo_rectangle demo_imencode
                 [Byte.x01] ".png" true false)
       = Some (encoded_masked, amount_masked)
    /\ encoded_gizmos <> encoded_masked
    /\ amount_gizmos = amount_masked.
Proof.
  eexists _, _, _, _. split; [vm_compute; reflexivity|].
  split; [vm_compute; reflexivity|]. split; [discriminate|].
  apply (count_independent_of_gizmos (demo_masker [whole_image_detector] [])
           demo_imdecode demo_Image_open demo_rectangle demo_imencode
           [Byte.x01] ".png" true
           [Byte.xff; Byte.xff; Byte.xff; Byte.xff; Byte.xff; Byte.xff] 1
           [Byte.x00; Byte.x00; Byte.x00; Byte.x00; Byte.x00; Byte.x00] 1);
    vm_compute; reflexivity.
Defined.

(** ** The calls made by the masking engine *)

Lemma bind_Some {A B} (m : io A) (k : A -> io B) a :
  result m = Some a -> m ≫= k = IO (log m ++ log (k a)) (result (k a)).
Proof. intros Hm. unfold mbind, io_bind. by rewrite Hm. Qed.

Lemma bind_None {A B} (m : io A) (k : A -> io B) :
  result m = None -> m ≫= k = IO (log m) None.
Proof. intros Hm. unfold mbind, io_bind. by rewrite Hm. Qed.

Lemma Forall_log_bind {A B} (P : event -> Prop) (m : io A) (k : A -> io B) :
  Forall P (log m) -> (forall a, Forall P (log (k a))) ->
  Forall P (log (m ≫= k)).
Proof.
  intros Hm Hk. unfold mbind, io_bind.
  destruct (result m) as [a|]; simpl; [|done].
  apply Forall_app. split; [done | apply Hk].
Qed.

Lemma Forall_log_for_each {A B} (P : event -> Prop) (body : A -> B -> io A) l acc :
  (forall acc x, Forall P (log (body acc x))) ->
  Forall P (log (for_each body l acc)).
Proof.
  intros Hbody. revert acc. induction l as [|x l IH]; intros acc; simpl.
  - constructor.
  - by apply Forall_log_bind.
Qed.

Lemma Forall_log_detect_faces_from (P : event -> Prop) i classifiers image :
  (forall j, P (EvDetectMultiScale j image)) ->
  Forall P (log (ImageMasker.detect_faces_from i classifiers image)).
Proof.
  intros HP. destruct (detect_faces_from_spec i classifiers image)
    as (n & faces & -> & _).
  simpl. unfold consulted_from. apply Forall_forall.
  intros e (j & -> & _)%list_elem_of_fmap. apply HP.
Qed.

Section EngineCalls.

Context {Inputs Outputs : Type} (self : ImageMasker.t Inputs Outputs).
Variable cv2_imdecode : bytes -> option MatLike.
Variable Image_open : bytes -> option Image.
Variable cv2_rectangle : MatLike -> Z * Z -> Z * Z -> Z * Z * Z -> Z -> MatLike.
Variable cv2_imencode : string -> MatLike -> option bytes.

Lemma Forall_log_find_rects (P : event -> Prop) image allow_full_mask :
  (allow_full_mask = false -> forall im, P (EvDetectionModel im)) ->
  Forall P (log (ImageMasker.find_rects_of_interest self image allow_full_mask)).
Proof.
  intros HP. unfold ImageMasker.find_rects_of_interest.
  destruct allow_full_mask; [constructor|].
  rewrite bind_emit. cbn [log]. constructor; [by apply HP|].
  apply Forall_log_bind; [constructor|]. intros outputs.
  apply Forall_log_for_each. intros rects [[score label] box].
  unfold ImageMasker.keep_prediction.
  apply Forall_log_bind.
  - apply Forall_log_bind; [constructor|]. intros b. constructor.
  - intros []; constructor.
Qed.

Lemma Forall_log_detect_maskable_areas (P : event -> Prop) mat areas_of_interest :
  (forall j sub, P (EvDetectMultiScale j sub)) ->
  Forall P (log (ImageMasker.detect_maskable_areas self mat areas_of_interest)).
Proof.
  intros HP. apply Forall_log_for_each. intros [areas gizmos] rect.
  unfold ImageMasker.detect_in_area. apply Forall_log_bind.
  - by apply Forall_log_detect_faces_from.
  - intros detected. destruct (0 <? _); constructor.
Qed.

(** [mask_data] logs its own call first; what follows is decoding, opening,
    the detection model unless [allow_full_mask] is set, the classifiers
    and the encoding. *)
Lemma mask_data_log image_as_bytes extension allow_full_mask should_draw_gizmos :
  exists rest : list event,
    log (ImageMasker.mask_data self cv2_imdecode Image_open cv2_rectangle
           cv2_imencode image_as_bytes extension allow_full_mask
           should_draw_gizmos)
    = EvMaskData image_as_bytes extension allow_full_mask should_draw_gizmos
      :: rest
    /\ forall P : event -> Prop,
         (forall data, P (EvImdecode data)) ->
         (forall data, P (EvImageOpen data)) ->
         (allow_full_mask = false -> forall im, P (EvDetectionModel im)) ->
         (forall j sub, P (EvDetectMultiScale j sub)) ->
         (forall ext, P (EvImencode ext)) ->
         Forall P rest.
Proof.
  unfold ImageMasker.mask_data. rewrite bind_emit. eexists. split; [done|].
  intros P Hdecode Hopen Hmodel Hcascade Hencode.
  cbn [log]. rewrite bind_emit. cbn [log]. constructor; [done|].
  rewrite bind_emit. cbn [log]. constructor; [done|].
  apply Forall_log_bind; [constructor|]. intros image.
  apply Forall_log_bind; [by apply Forall_log_find_rects|].
  intros areas_of_interest. apply Forall_log_bind; [constructor|]. intros mat.
  apply Forall_log_bind; [by apply Forall_log_detect_maskable_areas|].
  intros [areas detected_faces]. rewrite bind_emit. cbn [log].
  constructor; [done|].
  apply Forall_log_bind; [constructor|]. intros encoded. constructor.
Qed.

Lemma mask_data_log_engine image_as_bytes extension allow_full_mask
    should_draw_gizmos :
  exists rest : list event,
    log (ImageMasker.mask_data self cv2_imdecode Image_open cv2_rectangle
           cv2_imencode image_as_bytes extension allow_full_mask
           should_draw_gizmos)
    = EvMaskData image_as_bytes extension allow_full_mask should_draw_gizmos
      :: rest
    /\ Forall engine_event rest.
Proof.
  destruct (mask_data_log image_as_bytes extension allow_full_mask
              should_draw_gizmos) as (rest & Hlog & Hrest).
  exists rest. split; [done|]. by apply Hrest.
Qed.

(** C2. With [allow_full_mask] set, [find_rects_of_interest] returns the one
    rectangle (0, 0, width, height) and makes no external call, whatever the
    image; and a whole run of [mask_data] in that mode never calls the
    detection model. *)
Theorem full_mask_proposes_whole_image (image : Image) :
  ImageMasker.find_rects_of_interest self image true
  = IO [] (Some [(0, 0, (size image).1, (size image).2)])
  /\ forall (image_as_bytes : bytes) (extension : string)
            (should_draw_gizmos : bool),
       Forall (fun e => ~ is_model_call e)
         (log (ImageMasker.mask_data self cv2_imdecode Image_open cv2_rectangle
                 cv2_imencode image_as_bytes extension true should_draw_gizmos)).
Proof.
  split; [reflexivity|]. intros image_as_bytes extension should_draw_gizmos.
  destruct (mask_data_log image_as_bytes extension true should_draw_gizmos)
    as (rest & -> & Hrest).
  constructor; [by intros []|]. apply Hrest; try by intros ? [].
  by intros ? ? [].
Qed.

End EngineCalls.

(** ** The document masker *)

Lemma for_each_invariant {A B} (P : A -> Prop) (body : A -> B -> io A) l acc acc' :
  (forall acc x acc', P acc -> result (body acc x) = Some acc' -> P acc') ->
  P acc -> result (for_each body l acc) = Some acc' -> P acc'.
Proof.
  intros Hbody. revert acc. induction l as [|x l IH]; intros acc Hacc; simpl.
  - by intros [= <-].
  - rewrite bind_result. destruct (result (body acc x)) as [acc1|] eqn:Hx; [|done].
    simpl. by apply IH, (Hbody acc x).
Qed.

Section Document.

Context {Inputs Outputs : Type}.
Variable cv2_imdecode : bytes -> option MatLike.
Variable Image_open : bytes -> option Image.
Variable cv2_rectangle : MatLike -> Z * Z -> Z * Z -> Z * Z * Z -> Z -> MatLike.
Variable cv2_imencode : string -> MatLike -> option bytes.
Variable fitz_Pixmap : bytes -> option PDFMasker.ImageObj.
Variable self : PDFMasker.t Inputs Outputs.

Local Abbreviation mask_embedded_image :=
  (PDFMasker.mask_embedded_image cv2_imdecode Image_open cv2_rectangle
     cv2_imencode fitz_Pixmap self).

Local Abbreviation mask_page :=
  (PDFMasker.mask_page cv2_imdecode Image_open cv2_rectangle cv2_imencode
     fitz_Pixmap self).

Local Abbreviation engine_mask_data :=
  (ImageMasker.mask_data (PDFMasker.image_masker self) cv2_imdecode Image_open
     cv2_rectangle cv2_imencode).

Lemma skipped_spec image_obj :
  PDFMasker.skipped image_obj = true
  <-> PDFMasker.obj_smask image_obj <> 0
      /\ PDFMasker.obj_ext image_obj <> "png"
      /\ PDFMasker.obj_ext image_obj <> "gif".
Proof.
  unfold PDFMasker.skipped.
  rewrite andb_true_iff, !negb_true_iff, orb_false_iff, !bool_decide_eq_false.
  by rewrite Z.eqb_neq.
Qed.

Lemma mask_embedded_image_skipped should_draw_gizmos page_width page_height
    pdf_document xref image_obj :
  PDFMasker.objects pdf_document !! xref = Some image_obj ->
  PDFMasker.skipped image_obj = true ->
  mask_embedded_image should_draw_gizmos page_width page_height pdf_document xref
  = IO [EvExtractImage xref] (Some pdf_document).
Proof.
  intros Hobj Hskip. unfold PDFMasker.mask_embedded_image.
  rewrite bind_emit, Hobj, bind_lift_Some, Hskip. reflexivity.
Qed.

(** The step on an image that is not skipped and that PIL opens: the
    extraction, the opening, the calls of the masking engine, and then the
    commit decided by the count. *)
Lemma mask_embedded_image_masked should_draw_gizmos page_width page_height
    pdf_document xref image_obj image encoded amount :
  PDFMasker.objects pdf_document !! xref = Some image_obj ->
  PDFMasker.skipped image_obj = false ->
  Image_open (PDFMasker.obj_image image_obj) = Some image ->
  result (engine_mask_data (PDFMasker.obj_image image_obj) ".png"
            (negb (PDFMasker.is_overlapping_full_page image page_width page_height))
            should_draw_gizmos)
  = Some (encoded, amount) ->
  mask_embedded_image should_draw_gizmos page_width page_height pdf_document xref
  = IO (EvExtractImage xref :: EvImageOpen (PDFMasker.obj_image image_obj)
        :: log (engine_mask_data (PDFMasker.obj_image image_obj) ".png"
                  (negb (PDFMasker.is_overlapping_full_page image page_width
                           page_height))
                  should_draw_gizmos)
        ++ (if 0 <? amount
            then match fitz_Pixmap encoded with
                 | Some _ => [EvReplaceImage xref encoded]
                 | None => []
                 end
            else []))
       (if 0 <? amount
        then PDFMasker.replace_image pdf_document xref <$> fitz_Pixmap encoded
        else Some pdf_document).
Proof.
  intros Hobj Hskip Himage Hmask. unfold PDFMasker.mask_embedded_image.
  rewrite bind_emit, Hobj, bind_lift_Some, Hskip.
  rewrite bind_emit, Himage, bind_lift_Some.
  rewrite (bind_Some _ _ _ Hmask). cbn [log result].
  destruct (0 <? amount); [|done].
  destruct (fitz_Pixmap encoded) as [pixmap|]; [|done].
  by rewrite bind_lift_Some, bind_emit.
Qed.

Lemma mask_embedded_image_frame should_draw_gizmos page_width page_height
    pdf_document xref pdf_document' :
  result (mask_embedded_image should_draw_gizmos page_width page_height
            pdf_document xref) = Some pdf_document' ->
  forall other : Z, other <> xref ->
    PDFMasker.objects pdf_document' !! other
    = PDFMasker.objects pdf_document !! other.
Proof.
  unfold PDFMasker.mask_embedded_image. rewrite bind_emit. cbn [result].
  rewrite bind_result. cbn [lift result].
  destruct (PDFMasker.objects pdf_document !! xref) as [image_obj|]; [|done].
  cbn [mbind option_bind].
  destruct (PDFMasker.skipped image_obj); [by intros [= <-]|].
  rewrite bind_emit. cbn [result]. rewrite bind_result. cbn [lift result].
  destruct (Image_open _) as [image|]; [|done]. cbn [mbind option_bind].
  rewrite bind_result. destruct (result (ImageMasker.mask_data _ _ _ _ _ _ _ _ _))
    as [[encoded amount]|]; [|done].
  cbn [mbind option_bind]. destruct (0 <? amount); [|by intros [= <-]].
  rewrite bind_result. cbn [lift result].
  destruct (fitz_Pixmap encoded) as [pixmap|]; [|done].
  cbn. intros [= <-] other Hother. cbn. by rewrite lookup_insert_ne.
Qed.


(** C7. An embedded image with a soft mask whose format is neither PNG nor
    GIF is skipped: the step consists of its extraction alone (it is not
    opened and the masking engine is not called) and leaves the document as
    it is; and after the loop over all pages the object at its xref is still
    the same. *)
Theorem soft_masked_image_untouched should_draw_gizmos page_width page_height
    pdf_document xref image_obj :
  PDFMasker.objects pdf_document !! xref = Some image_obj ->
  PDFMasker.obj_smask image_obj <> 0 ->
  PDFMasker.obj_ext image_obj <> "png" ->
  PDFMasker.obj_ext image_obj <> "gif" ->
  mask_embedded_image should_draw_gizmos page_width page_height pdf_document xref
  = IO [EvExtractImage xref] (Some pdf_document)
  /\ forall pdf_document' : PDFMasker.Document,
       result (for_each (mask_page should_draw_gizmos)
                 (seq 0 (length (PDFMasker.pages pdf_document))) pdf_document)
       = Some pdf_document' ->
       PDFMasker.objects pdf_document' !! xref = Some image_obj.
Proof.
  intros Hobj Hsmask Hpng Hgif.
  assert (PDFMasker.skipped image_obj = true) as Hskip by by apply skipped_spec.
  split; [by apply (mask_embedded_image_skipped _ _ _ _ _ image_obj)|].
  intros pdf_document'.
  apply (for_each_invariant
           (fun d => PDFMasker.objects d !! xref = Some image_obj)); [|done].
  intros d page_number d' Hd. unfold PDFMasker.mask_page.
  rewrite bind_result. cbn [lift result].
  destruct (PDFMasker.pages d !! page_number) as [page|]; [|done].
  cbn [mbind option_bind].
  apply (for_each_invariant
           (fun d => PDFMasker.objects d !! xref = Some image_obj)); [|done].
  clear d d' Hd. intros d x d' Hd Hstep.
  destruct (decide (x = xref)) as [->|Hne].
  - rewrite (mask_embedded_image_skipped _ _ _ d xref image_obj Hd Hskip) in Hstep.
    by injection Hstep as <-.
  - by rewrite (mask_embedded_image_frame _ _ _ _ _ _ Hstep xref).
Qed.



End Document.

(** On a page of 100 by 100 points an image of 80 by 90 pixels does not cover
    the page, an image of 81 by 81 pixels does. *)
Example is_overlapping_full_page_at_80_percent :
  PDFMasker.is_overlapping_full_page (demo_image 80 90) 100 100 = false
  /\ PDFMasker.is_overlapping_full_page (demo_image 90 80) 100 100 = false
  /\ PDFMasker.is_overlapping_full_page (demo_image 81 81) 100 100 = true.
Proof. by vm_compute. Qed.

(** The whole run on the two-image document: the soft-masked JPEG is only
    extracted; the other image is masked in full-mask mode and replaced. *)
Example mask_data_demo_document :
  PDFMasker.mask_data demo_imdecode demo_Image_open demo_rectangle
    demo_imencode demo_fitz_open demo_Pixmap demo_tobytes demo_pdf_masker
    [] false
  = IO [EvExtractImage 7;
        EvExtractImage 8; EvImageOpen [Byte.x02];
        EvMaskData [Byte.x02] ".png" true false;
        EvImdecode [Byte.x02]; EvImageOpen [Byte.x02];
        EvDetectMultiScale 0 (demo_mat 2 3);
        EvImencode ".png";
        EvReplaceImage 8 [Byte.x00; Byte.x00; Byte.x00; Byte.x00; Byte.x00; Byte.x00]]
       (Some [Byte.x01; Byte.x00; Byte.x00; Byte.x00; Byte.x00; Byte.x00; Byte.x00]).
Proof. by vm_compute. Qed.

Lemma soft_masked_image_untouched_witness :
  PDFMasker.mask_embedded_image demo_imdecode demo_Image_open demo_rectangle
    demo_imencode demo_Pixmap demo_pdf_masker false 100 100 demo_document 7
  = IO [EvExtractImage 7] (Some demo_document)
  /\ forall pdf_document' : PDFMasker.Document,
       result (for_each
                 (PDFMasker.mask_page demo_imdecode demo_Image_open
                    demo_rectangle demo_imencode demo_Pixmap demo_pdf_masker
                    false)
                 (seq 0 (length (PDFMasker.pages demo_document))) demo_document)
       = Some pdf_document' ->
       PDFMasker.objects pdf_document' !! 7 = Some demo_soft_masked.
Proof.
  apply (soft_masked_image_untouched demo_imdecode demo_Image_open
           demo_rectangle demo_imencode demo_Pixmap demo_pdf_masker false
           100 100 demo_document 7 demo_soft_masked);
    [reflexivity | vm_compute; discriminate | discriminate | discriminate].
Defined.



(** * Further properties of the code *)

(** ** Rounding of the boxes *)

Lemma py_round_floor q : Qfloor q <= py_round q <= Qfloor q + 1.
Proof.
  unfold py_round. destruct (_ ?= _)%Q; [destruct (Z.even _)| |]; lia.
Qed.

Lemma py_round_mono q1 q2 : (q1 <= q2)%Q -> py_round q1 <= py_round q2.
Proof.
  intros Hle. pose proof (Qfloor_resp_le _ _ Hle) as Hfloor.
  destruct (Z.eq_dec (Qfloor q1) (Qfloor q2)) as [Heq|Hne].
  - unfold py_round. rewrite <- Heq.
    destruct (Qcompare_spec (q1 - inject_Z (Qfloor q1)) (1 # 2)) as [H1|H1|H1];
    destruct (Qcompare_spec (q2 - inject_Z (Qfloor q1)) (1 # 2)) as [H2|H2|H2];
      try destruct (Z.even _); try lia; exfalso; lra.
  - pose proof (py_round_floor q1). pose proof (py_round_floor q2). lia.
Qed.

Lemma py_round_half_pixel q : half_pixel (py_round q) q.
Proof.
  unfold half_pixel, py_round.
  pose proof (Qfloor_le q) as Hlo. pose proof (Qlt_floor q) as Hhi.
  rewrite inject_Z_plus in Hhi. change (inject_Z 1) with 1%Q in Hhi.
  destruct (Qcompare_spec (q - inject_Z (Qfloor q)) (1 # 2)) as [H|H|H];
    [destruct (Z.even _)| |]; rewrite ?inject_Z_plus;
    change (inject_Z 1) with 1%Q; split; lra.
Qed.

(** X1. The rectangle of a box has its corners within half a pixel of the
    corners of the box, the far corner included (the width carries no
    rounding error of its own), and a box with x0 <= x1 and y0 <= y1 gives a
    rectangle of non-negative width and height. *)
Theorem rect_of_box_near_box (b0 b1 b2 b3 : Q) :
  let rect := ImageMasker.rect_of_box (b0, b1, b2, b3) in
  half_pixel (rect_x rect) b0
  /\ half_pixel (rect_y rect) b1
  /\ half_pixel (rect_x rect + rect_w rect) b2
  /\ half_pixel (rect_y rect + rect_h rect) b3
  /\ ((b0 <= b2)%Q -> 0 <= rect_w rect)
  /\ ((b1 <= b3)%Q -> 0 <= rect_h rect).
Proof.
  unfold ImageMasker.rect_of_box, rect_x, rect_y, rect_w, rect_h. simpl.
  replace (py_round b0 + (py_round b2 - py_round b0)) with (py_round b2) by lia.
  replace (py_round b1 + (py_round b3 - py_round b1)) with (py_round b3) by lia.
  repeat split; try apply py_round_half_pixel.
  - intros H%py_round_mono. lia.
  - intros H%py_round_mono. lia.
Qed.

(** ** The aspect-ratio and overlap tests *)

Section Predicates.

Context {Inputs Outputs : Type}.
Variable classifiers : list (MatLike -> list Rect).
Variable model : Inputs -> option Outputs.
Variable processor : ImageMasker.ImageProcessor Inputs Outputs.

(** X2. For a masker as [__init__] builds it, [is_within_aspect_ratio]
    raises on a rectangle of height zero; for a positive height it holds if
    and only if the width is at least half the height and at most twice the
    height, and for a negative height if and only if the same holds of the
    negated width and height. *)
Theorem is_within_aspect_ratio_bounds (rect : Rect) :
  let self := ImageMasker.init classifiers model processor in
  (rect_h rect = 0 -> ImageMasker.is_within_aspect_ratio self rect = None)
  /\ (0 < rect_h rect ->
      exists b : bool,
        ImageMasker.is_within_aspect_ratio self rect = Some b
        /\ (b = true <-> rect_h rect <= 2 * rect_w rect
                         /\ rect_w rect <= 2 * rect_h rect))
  /\ (rect_h rect < 0 ->
      exists b : bool,
        ImageMasker.is_within_aspect_ratio self rect = Some b
        /\ (b = true <-> - rect_h rect <= 2 * - rect_w rect
                         /\ - rect_w rect <= 2 * - rect_h rect)).
Proof.
  destruct rect as [[[x y] w] h].
  unfold ImageMasker.is_within_aspect_ratio, py_truediv, rect_w, rect_h.
  cbn [fst snd ImageMasker.init ImageMasker.min_aspect ImageMasker.max_aspect].
  split; [by intros ->|].
  split; intros Hh; (destruct (Z.eqb_spec h 0) as [|_]; [lia|]);
    cbn [mbind option_bind]; eexists; (split; [reflexivity|]);
    rewrite andb_true_iff, !Qle_bool_iff;
    destruct h as [|h|h]; try lia;
    unfold Qle, Qdiv, Qmult, Qinv, inject_Z; simpl; lia.
Qed.

End Predicates.

(** X3. [is_overlapping_full_image] raises exactly when the image width is
    zero, or the width test fails and the image height is zero: a
    rectangle wider than 70% of the image is reported as overlapping without
    the height of the image being read. *)
Theorem is_overlapping_full_image_raises (rect : Rect) (image : Image) :
  ImageMasker.is_overlapping_full_image rect image = None
  <-> (size image).1 = 0
      \/ ((size image).2 = 0
          /\ (inject_Z (rect_w rect) / inject_Z (size image).1 <= 7 # 10)%Q).
Proof.
  destruct rect as [[[x y] w] h].
  unfold ImageMasker.is_overlapping_full_image, py_truediv, rect_w. cbn [fst snd].
  destruct (Z.eqb_spec (size image).1 0) as [Hw|Hw]; cbn [mbind option_bind].
  - split; [by left | done].
  - unfold Qgtb. destruct (Qle_bool _ (7 # 10)) eqn:Hle; cbn [negb].
    + apply Qle_bool_iff in Hle.
      destruct (Z.eqb_spec (size image).2 0) as [Hh|Hh]; cbn [mbind option_bind].
      * split; [by right | done].
      * split; [done | intros [?|[? _]]; lia].
    + split; [done|]. intros [?|[_ Hle']]; [lia|].
      apply Qle_bool_iff in Hle'. congruence.
Qed.

(** ** The proposals, in full *)

Lemma Forall_False_nil {A} (l : list A) : Forall (fun _ => False) l -> l = [].
Proof. by intros [|x l' []]. Qed.

Lemma for_each_keep_log image allow_full_mask results rects :
  log (for_each (ImageMasker.keep_prediction image allow_full_mask) results rects)
  = [].
Proof.
  apply Forall_False_nil, Forall_log_for_each.
  intros acc [[score label] box]. unfold ImageMasker.keep_prediction.
  apply Forall_log_bind.
  - destruct allow_full_mask; [constructor|].
    apply Forall_log_bind; [constructor|]. intros b. constructor.
  - intros []; constructor.
Qed.

Section Proposals.

Context {Inputs Outputs : Type} (self : ImageMasker.t Inputs Outputs).

(** X4. Without [allow_full_mask], on an image of positive size on which the
    detection model returns, [find_rects_of_interest] runs the model once and
    returns the rectangles of the predictions that pass the 70% test, in the
    order of the predictions and with their repetitions: nothing is sorted,
    merged or deduplicated. *)
Theorem find_rects_of_interest_in_order (image : Image) (outputs : Outputs) :
  0 < (size image).1 -> 0 < (size image).2 ->
  ImageMasker.detection_model self
    (ImageMasker.preprocess (ImageMasker.image_processor self)
       (convert image "RGB")) = Some outputs ->
  ImageMasker.find_rects_of_interest self image false
  = IO [EvDetectionModel (convert image "RGB")]
       (Some (List.filter (fun rect => within_70_percentb rect (size image))
                (map prediction_rect
                   (ImageMasker.post_process_object_detection
                      (ImageMasker.image_processor self) outputs
                      (ImageMasker.processing_threshold self)
                      ((size image).2, (size image).1))))).
Proof.
  intros Hw Hh Hmodel. unfold ImageMasker.find_rects_of_interest.
  rewrite bind_emit, Hmodel, bind_lift_Some.
  rewrite for_each_keep_log. f_equal.
  by apply (for_each_keep_result (convert image "RGB")).
Qed.

Lemma find_rects_of_interest_model_failure (image : Image) :
  ImageMasker.detection_model self
    (ImageMasker.preprocess (ImageMasker.image_processor self)
       (convert image "RGB")) = None ->
  ImageMasker.find_rects_of_interest self image false
  = IO [EvDetectionModel (convert image "RGB")] None.
Proof.
  intros Hmodel. unfold ImageMasker.find_rects_of_interest.
  by rewrite bind_emit, Hmodel, bind_lift_None.
Qed.

End Proposals.

Lemma find_rects_of_interest_in_order_witness :
  ImageMasker.find_rects_of_interest
    (demo_masker []
       [(9 # 10, 1%Z, (0, 0, 7, 5)); (9 # 10, 1%Z, (0, 0, 8, 5));
        (5 # 10, 2%Z, (0, 0, 7, 5))]%Q)
    (demo_image 10 10) false
  = IO [EvDetectionModel (demo_image 10 10)] (Some [(0, 0, 7, 5); (0, 0, 7, 5)]).
Proof.
  apply (find_rects_of_interest_in_order
           (demo_masker []
              [(9 # 10, 1%Z, (0, 0, 7, 5)); (9 # 10, 1%Z, (0, 0, 8, 5));
               (5 # 10, 2%Z, (0, 0, 7, 5))]%Q)
           (demo_image 10 10) tt); [simpl; lia | simpl; lia | reflexivity].
Defined.

(** ** The masking engine, in full *)

Section Engine.

Context {Inputs Outputs : Type} (self : ImageMasker.t Inputs Outputs).
Variable cv2_imdecode : bytes -> option MatLike.
Variable Image_open : bytes -> option Image.
Variable cv2_rectangle : MatLike -> Z * Z -> Z * Z -> Z * Z * Z -> Z -> MatLike.
Variable cv2_imencode : string -> MatLike -> option bytes.

Local Abbreviation mask_data :=
  (ImageMasker.mask_data self cv2_imdecode Image_open cv2_rectangle cv2_imencode).

Local Abbreviation classifiers := (ImageMasker.cascade_classifiers self).

(** What [mask_data] returns, step by step. *)
Lemma mask_data_result image_as_bytes extension allow_full_mask should_draw_gizmos :
  result (mask_data image_as_bytes extension allow_full_mask should_draw_gizmos)
  = (image ← Image_open image_as_bytes;
     areas_of_interest ←
       result (ImageMasker.find_rects_of_interest self image allow_full_mask);
     mat ← cv2_imdecode image_as_bytes;
     encoded ←
       cv2_imencode extension
         (painted cv2_rectangle classifiers should_draw_gizmos
            areas_of_interest mat);
     Some (encoded,
           Z.of_nat (length (List.filter (confirmed classifiers mat)
                               areas_of_interest)))).
Proof.
  unfold ImageMasker.mask_data. rewrite !bind_emit. cbn [result].
  rewrite bind_result. cbn [lift result].
  destruct (Image_open image_as_bytes) as [image|]; [|done].
  cbn [mbind option_bind]. rewrite bind_result.
  destruct (result (ImageMasker.find_rects_of_interest self image allow_full_mask))
    as [areas_of_interest|]; [|done].
  cbn [mbind option_bind]. rewrite bind_result. cbn [lift result].
  destruct (cv2_imdecode image_as_bytes) as [mat|]; [|done].
  cbn [mbind option_bind].
  rewrite bind_result, detect_maskable_areas_result. cbn [mbind option_bind].
  rewrite bind_emit. cbn [result]. rewrite bind_result. cbn [lift result].
  unfold painted. by destruct should_draw_gizmos.
Qed.

(** X5. A failure of the detection model is not turned into "no region
    found": [mask_data] raises right after the call to the model, before any
    classifier is consulted and before anything is encoded. *)
Theorem detection_failure_propagates image_as_bytes extension should_draw_gizmos
    image :
  Image_open image_as_bytes = Some image ->
  ImageMasker.detection_model self
    (ImageMasker.preprocess (ImageMasker.image_processor self)
       (convert image "RGB")) = None ->
  mask_data image_as_bytes extension false should_draw_gizmos
  = IO [EvMaskData image_as_bytes extension false should_draw_gizmos;
        EvImdecode image_as_bytes; EvImageOpen image_as_bytes;
        EvDetectionModel (convert image "RGB")]
       None.
Proof.
  intros Himage Hmodel. unfold ImageMasker.mask_data.
  rewrite !bind_emit, Himage, bind_lift_Some.
  by rewrite (find_rects_of_interest_model_failure self image Hmodel).
Qed.

(** X6. Bytes that PIL cannot open make [mask_data] raise after the two
    decoding calls: neither the detection model nor a classifier is run. *)
Theorem unopenable_image_raises image_as_bytes extension allow_full_mask
    should_draw_gizmos :
  Image_open image_as_bytes = None ->
  mask_data image_as_bytes extension allow_full_mask should_draw_gizmos
  = IO [EvMaskData image_as_bytes extension allow_full_mask should_draw_gizmos;
        EvImdecode image_as_bytes; EvImageOpen image_as_bytes]
       None.
Proof.
  intros Himage. unfold ImageMasker.mask_data.
  by rewrite !bind_emit, Himage, bind_lift_None.
Qed.

(** X7. Bytes for which [cv2.imdecode] returns [None] make [mask_data]
    raise, whatever PIL and the detection model do with them, and no
    classifier is consulted and nothing is encoded on the way. *)
Theorem undecodable_image_raises image_as_bytes extension allow_full_mask
    should_draw_gizmos :
  cv2_imdecode image_as_bytes = None ->
  result (mask_data image_as_bytes extension allow_full_mask should_draw_gizmos)
  = None
  /\ Forall (fun e => ~ is_classifier_or_encoder_call e)
       (log (mask_data image_as_bytes extension allow_full_mask
               should_draw_gizmos)).
Proof.
  intros Hmat. split.
  - rewrite mask_data_result, Hmat.
    destruct (Image_open image_as_bytes) as [image|]; [|done].
    cbn [mbind option_bind]. by destruct (result _).
  - unfold ImageMasker.mask_data. rewrite !bind_emit, Hmat. cbn [log].
    do 3 (constructor; [by intros []|]).
    apply Forall_log_bind; [constructor|]. intros image.
    apply Forall_log_bind.
    + apply Forall_log_find_rects. by intros _ im [].
    + intros areas_of_interest. rewrite bind_lift_None. constructor.
Qed.

(** X8. When [mask_data], masking rather than drawing gizmos, returns the
    count zero, the bytes it returns are the encoding of the decoded buffer
    as it was decoded: no pixel was drawn on. *)
Theorem nothing_masked_reencodes_input image_as_bytes extension allow_full_mask
    encoded :
  result (mask_data image_as_bytes extension allow_full_mask false)
  = Some (encoded, 0) ->
  exists mat : MatLike,
    cv2_imdecode image_as_bytes = Some mat
    /\ cv2_imencode extension mat = Some encoded.
Proof.
  rewrite mask_data_result.
  destruct (Image_open image_as_bytes) as [image|]; [|done].
  cbn [mbind option_bind].
  destruct (result _) as [areas_of_interest|]; [|done]. cbn [mbind option_bind].
  destruct (cv2_imdecode image_as_bytes) as [mat|]; [|done].
  cbn [mbind option_bind]. unfold painted.
  destruct (List.filter _ _) as [|area areas] eqn:Hareas.
  - cbn [ImageMasker.mask_areas fold_left].
    destruct (cv2_imencode extension mat) as [encoded'|] eqn:Hencoded; [|done].
    cbn. intros [= <-]. by exists mat.
  - destruct (cv2_imencode extension _); [|done]. cbn. by intros [=].
Qed.

(** X9. The count returned by [mask_data] never exceeds the number of
    areas of interest proposed for the image, and is never negative. *)
Theorem count_at_most_proposals image_as_bytes extension allow_full_mask
    should_draw_gizmos encoded amount :
  result (mask_data image_as_bytes extension allow_full_mask should_draw_gizmos)
  = Some (encoded, amount) ->
  exists (image : Image) (areas_of_interest : list Rect),
    Image_open image_as_bytes = Some image
    /\ result (ImageMasker.find_rects_of_interest self image allow_full_mask)
       = Some areas_of_interest
    /\ 0 <= amount <= Z.of_nat (length areas_of_interest).
Proof.
  intros (image & aoi & mat & Himage & Haoi & _ & ->)%mask_data_count.
  exists image, aoi. split; [done|]. split; [done|].
  pose proof (filter_length_le (confirmed classifiers mat) aoi). lia.
Qed.

(** X10. In full-mask mode [mask_data] returns exactly when both decoders
    accept the bytes and the encoder accepts the painted buffer; the only
    area of interest is the whole image, and the count is one when the
    verifier confirms a feature in it and zero otherwise. *)
Theorem full_mask_count image_as_bytes extension should_draw_gizmos :
  result (mask_data image_as_bytes extension true should_draw_gizmos)
  = (image ← Image_open image_as_bytes;
     mat ← cv2_imdecode image_as_bytes;
     let whole := (0, 0, (size image).1, (size image).2) in
     encoded ←
       cv2_imencode extension
         (painted cv2_rectangle classifiers should_draw_gizmos [whole] mat);
     Some (encoded, if confirmed classifiers mat whole then 1 else 0)).
Proof.
  rewrite mask_data_result.
  destruct (Image_open image_as_bytes) as [image|]; [|done].
  cbn [mbind option_bind ImageMasker.find_rects_of_interest mret io_ret result
       app].
  destruct (cv2_imdecode image_as_bytes) as [mat|]; [|done].
  cbn [mbind option_bind]. destruct (cv2_imencode _ _); [|done].
  cbn [mbind option_bind List.filter]. by destruct (confirmed _ _ _).
Qed.

End Engine.

Lemma detection_failure_propagates_witness :
  ImageMasker.mask_data (failing_masker [whole_image_detector]) demo_imdecode
    demo_Image_open demo_rectangle demo_imencode [Byte.x01] ".png" false false
  = IO [EvMaskData [Byte.x01] ".png" false false; EvImdecode [Byte.x01];
        EvImageOpen [Byte.x01];
        EvDetectionModel {| size := (3, 2); mode := "RGB"; source := [Byte.x01] |}]
       None.
Proof.
  apply (detection_failure_propagates (failing_masker [whole_image_detector])
           demo_imdecode demo_Image_open demo_rectangle demo_imencode
           [Byte.x01] ".png" false
           {| size := (3, 2); mode := "RGB"; source := [Byte.x01] |});
    reflexivity.
Defined.

Lemma unopenable_image_raises_witness :
  ImageMasker.mask_data (demo_masker [whole_image_detector] []) demo_imdecode
    demo_Image_open demo_rectangle demo_imencode [] ".png" false false
  = IO [EvMaskData [] ".png" false false; EvImdecode []; EvImageOpen []] None.
Proof.
  apply (unopenable_image_raises (demo_masker [whole_image_detector] [])
           demo_imdecode demo_Image_open demo_rectangle demo_imencode
           [] ".png" false false).
  reflexivity.
Defined.

Lemma undecodable_image_raises_witness :
  result (ImageMasker.mask_data (demo_masker [whole_image_detector] [])
            (fun _ => None) demo_Image_open demo_rectangle demo_imencode
            [Byte.x01] ".png" true false)
  = None
  /\ Forall (fun e => ~ is_classifier_or_encoder_call e)
       (log (ImageMasker.mask_data (demo_masker [whole_image_detector] [])
               (fun _ => None) demo_Image_open demo_rectangle demo_imencode
               [Byte.x01] ".png" true false)).
Proof.
  apply (undecodable_image_raises (demo_masker [whole_image_detector] [])
           (fun _ => None) demo_Image_open demo_rectangle demo_imencode
           [Byte.x01] ".png" true false).
  reflexivity.
Defined.

Lemma nothing_masked_reencodes_input_witness :
  exists mat : MatLike,
    demo_imdecode [Byte.x01] = Some mat
    /\ demo_imencode ".png" mat
       = Some [Byte.x00; Byte.xff; Byte.xff; Byte.xff; Byte.xff; Byte.xff].
Proof.
  apply (nothing_masked_reencodes_input (demo_masker [blind_detector] [])
           demo_imdecode demo_Image_open demo_rectangle demo_imencode
           [Byte.x01] ".png" true).
  vm_compute. reflexivity.
Defined.

Lemma count_at_most_proposals_witness :
  exists (image : Image) (areas_of_interest : list Rect),
    demo_Image_open [Byte.x01] = Some image
    /\ result (ImageMasker.find_rects_of_interest
                 (demo_masker [whole_image_detector] []) image true)
       = Some areas_of_interest
    /\ 0 <= 1 <= Z.of_nat (length areas_of_interest).
Proof.
  apply (count_at_most_proposals (demo_masker [whole_image_detector] [])
           demo_imdecode demo_Image_open demo_rectangle demo_imencode
           [Byte.x01] ".png" true false
           [Byte.x00; Byte.x00; Byte.x00; Byte.x00; Byte.x00; Byte.x00] 1).
  vm_compute. reflexivity.
Defined.

(** ** The verification, in full *)

Lemma py_slice_all {A} (l : list A) (stop : Z) :
  Z.of_nat (length l) <= stop -> py_slice l 0 stop = l.
Proof.
  intros Hstop. unfold py_slice.
  rewrite !slice_bound_nonneg by lia.
  replace (Z.min 0 (Z.of_nat (length l))) with 0 by lia.
  replace (Z.min stop (Z.of_nat (length l))) with (Z.of_nat (length l)) by lia.
  cbn [Z.to_nat drop]. rewrite Z.sub_0_r, Nat2Z.id. apply firstn_all.
Qed.

Lemma crop_whole image w h cols :
  rectangular cols image -> cols <= w -> Z.of_nat (length image) <= h ->
  ImageMasker.crop image (0, 0, w, h) = image.
Proof.
  intros Hrect Hw Hh. unfold ImageMasker.crop. cbn [Z.add].
  rewrite py_slice_all by done.
  induction Hrect as [|row rows Hrow _ IH]; [done|].
  simpl in Hh. cbn [map]. rewrite py_slice_all by lia. f_equal. apply IH. lia.
Qed.

Lemma translate_origin w h d : ImageMasker.translate (0, 0, w, h) d = d.
Proof.
  destruct d as [[[dx dy] dw] dh]. unfold ImageMasker.translate.
  by rewrite !Z.add_0_r.
Qed.

Lemma sublist_filter {A} (f : A -> bool) (l : list A) :
  List.filter f l `sublist_of` l.
Proof.
  induction l as [|x l IH]; simpl; [constructor|].
  destruct (f x); by constructor.
Qed.

Section VerificationInFull.

Context {Inputs Outputs : Type} (self : ImageMasker.t Inputs Outputs).

Local Abbreviation classifiers := (ImageMasker.cascade_classifiers self).

Lemma detect_in_area_log image acc rect :
  log (ImageMasker.detect_in_area self image acc rect)
  = log (ImageMasker.detect_faces self (ImageMasker.crop image rect)).
Proof.
  destruct acc as [areas gizmos]. unfold ImageMasker.detect_in_area.
  rewrite (bind_Some _ _ _ (detect_faces_result self _)). cbn [log].
  destruct (0 <? _); cbn; by rewrite app_nil_r.
Qed.

(** Each area of interest is verified once, in order. *)
Lemma for_each_detect_log image areas_of_interest acc :
  log (for_each (ImageMasker.detect_in_area self image) areas_of_interest acc)
  = flat_map (fun rect =>
                log (ImageMasker.detect_faces self (ImageMasker.crop image rect)))
      areas_of_interest.
Proof.
  revert acc. induction areas_of_interest as [|rect rest IH]; intros acc; [done|].
  destruct acc as [areas gizmos]. cbn [for_each flat_map].
  rewrite (bind_Some _ _ _ (detect_in_area_result self image areas gizmos rect)).
  cbn [log]. by rewrite IH, detect_in_area_log.
Qed.

Lemma detect_maskable_areas_eq image areas_of_interest :
  ImageMasker.detect_maskable_areas self image areas_of_interest
  = IO (flat_map (fun rect =>
                    log (ImageMasker.detect_faces self
                           (ImageMasker.crop image rect)))
          areas_of_interest)
       (Some (List.filter (confirmed classifiers image) areas_of_interest,
              flat_map (features classifiers image) areas_of_interest)).
Proof.
  rewrite <- (io_eta (ImageMasker.detect_maskable_areas _ _ _)).
  rewrite detect_maskable_areas_result. f_equal. apply for_each_detect_log.
Qed.

(** X11. For a rectangle at the origin that is at least as large as the
    buffer, as in full-mask mode, the crop is the whole buffer: the
    classifiers are consulted on the image itself, and the features reported
    are their matches, untranslated. *)
Theorem whole_image_is_verified_as_is image w h cols :
  rectangular cols image -> cols <= w -> Z.of_nat (length image) <= h ->
  ImageMasker.crop image (0, 0, w, h) = image
  /\ ImageMasker.detect_maskable_areas self image [(0, 0, w, h)]
     = IO (log (ImageMasker.detect_faces self image))
          (Some (if 0 <? Z.of_nat (length (first_match classifiers image))
                 then ([(0, 0, w, h)], first_match classifiers image)
                 else ([], []))).
Proof.
  intros Hrect Hw Hh.
  pose proof (crop_whole image w h cols Hrect Hw Hh) as Hcrop.
  split; [done|]. rewrite detect_maskable_areas_eq.
  cbn [flat_map List.filter]. unfold confirmed, features.
  rewrite Hcrop, !app_nil_r.
  rewrite (map_ext _ id (translate_origin w h)), map_id.
  destruct (first_match classifiers image) as [|d faces]; [done|].
  by replace (0 <? Z.of_nat (length (d :: faces))) with true
    by (symmetry; apply Z.ltb_lt; simpl; lia).
Qed.

(** X12. [detect_maskable_areas] verifies every area of interest on its
    own: on two lists in a row it makes the calls of the first list, then
    those of the second, and returns the areas and the features of both, in
    that order. *)
Theorem detect_maskable_areas_app image first second :
  exists areas1 gizmos1 areas2 gizmos2 : list Rect,
    result (ImageMasker.detect_maskable_areas self image first)
    = Some (areas1, gizmos1)
    /\ result (ImageMasker.detect_maskable_areas self image second)
       = Some (areas2, gizmos2)
    /\ ImageMasker.detect_maskable_areas self image (first ++ second)
       = IO (log (ImageMasker.detect_maskable_areas self image first)
             ++ log (ImageMasker.detect_maskable_areas self image second))
            (Some (areas1 ++ areas2, gizmos1 ++ gizmos2)).
Proof.
  eexists _, _, _, _. rewrite !detect_maskable_areas_eq. cbn [log result].
  split; [done|]. split; [done|].
  by rewrite List.filter_app, !flat_map_app.
Qed.

Lemma confirmed_features image rect :
  confirmed classifiers image rect = true
  <-> features classifiers image rect <> [].
Proof.
  unfold confirmed, features. destruct (first_match _ _) as [|d faces].
  - split; [done|]. by intros [].
  - split; [done|]. intros _. apply Z.ltb_lt. simpl. lia.
Qed.

(** X13. Areas and features go together: [detect_maskable_areas] returns no
    area exactly when it returns no feature, it returns at least one feature
    per area, and every feature is a match found in the crop to one of the
    returned areas, translated by the origin of that area. *)
Theorem every_feature_has_its_area image areas_of_interest :
  exists areas detected_gizmos : list Rect,
    result (ImageMasker.detect_maskable_areas self image areas_of_interest)
    = Some (areas, detected_gizmos)
    /\ (areas = [] <-> detected_gizmos = [])
    /\ (length areas <= length detected_gizmos)%nat
    /\ forall d : Rect, d ∈ detected_gizmos ->
         exists rect d0 : Rect,
           rect ∈ areas
           /\ d0 ∈ first_match classifiers (ImageMasker.crop image rect)
           /\ d = ImageMasker.translate rect d0.
Proof.
  eexists _, _. split; [apply detect_maskable_areas_result|].
  assert (length (List.filter (confirmed classifiers image) areas_of_interest)
          <= length (flat_map (features classifiers image) areas_of_interest))%nat
    as Hlen.
  { induction areas_of_interest as [|rect rest IH]; [done|].
    cbn [List.filter flat_map]. rewrite length_app.
    destruct (confirmed classifiers image rect) eqn:Hc; [|lia].
    apply confirmed_features in Hc.
    destruct (features classifiers image rect); [done|]. simpl. lia. }
  split; [|split; [done|]].
  - split.
    + clear Hlen. induction areas_of_interest as [|rect rest IH]; [done|].
      cbn [List.filter flat_map].
      destruct (confirmed classifiers image rect) eqn:Hc; [done|].
      intros Hnil. rewrite (IH Hnil), app_nil_r.
      destruct (features classifiers image rect) eqn:Hf; [done|].
      assert (confirmed classifiers image rect = true); [|congruence].
      apply confirmed_features. by rewrite Hf.
    + intros Hnil. rewrite Hnil in Hlen.
      by destruct (List.filter _ _); [|simpl in Hlen; lia].
  - intros d Hd.
    apply list_elem_of_In, in_flat_map in Hd as (rect & Hrect & Hd).
    apply list_elem_of_In in Hd. unfold features in Hd.
    apply list_elem_of_fmap in Hd as (d0 & -> & Hd0).
    exists rect, d0. split; [|done].
    apply list_elem_of_In, filter_In. split; [done|].
    unfold confirmed. destruct (first_match _ _); [by apply elem_of_nil in Hd0|].
    apply Z.ltb_lt. simpl. lia.
Qed.

(** X14. The maskable areas are the areas of interest with some left out:
    their order and their repetitions are those of the proposals. *)
Theorem maskable_areas_in_order image areas_of_interest :
  exists areas detected_gizmos : list Rect,
    result (ImageMasker.detect_maskable_areas self image areas_of_interest)
    = Some (areas, detected_gizmos)
    /\ areas `sublist_of` areas_of_interest.
Proof.
  eexists _, _. split; [apply detect_maskable_areas_result|].
  apply sublist_filter.
Qed.

End VerificationInFull.

Lemma whole_image_is_verified_as_is_witness :
  ImageMasker.crop (demo_mat 2 3) (0, 0, 3, 2) = demo_mat 2 3
  /\ ImageMasker.detect_maskable_areas (demo_masker [whole_image_detector] [])
       (demo_mat 2 3) [(0, 0, 3, 2)]
     = IO (log (ImageMasker.detect_faces (demo_masker [whole_image_detector] [])
                  (demo_mat 2 3)))
          (Some (if 0 <? Z.of_nat (length (first_match [whole_image_detector]
                                             (demo_mat 2 3)))
                 then ([(0, 0, 3, 2)], first_match [whole_image_detector]
                                         (demo_mat 2 3))
                 else ([], []))).
Proof.
  apply (whole_image_is_verified_as_is (demo_masker [whole_image_detector] [])
           (demo_mat 2 3) 3 2 3); [unfold rectangular; repeat constructor | lia
                                  | simpl; lia].
Defined.

(** ** The document masker, in full *)

Lemma for_each_invariant_elem {A B} (P : A -> Prop) (body : A -> B -> io A)
    (l : list B) acc acc' :
  (forall acc x acc', x ∈ l -> P acc -> result (body acc x) = Some acc' -> P acc') ->
  P acc -> result (for_each body l acc) = Some acc' -> P acc'.
Proof.
  revert acc. induction l as [|x l IH]; intros acc Hbody Hacc; simpl.
  - by intros [= <-].
  - rewrite bind_result. destruct (result (body acc x)) as [acc1|] eqn:Hx; [|done].
    simpl. apply IH.
    + intros a y a' Hy. apply Hbody. by right.
    + apply (Hbody acc x); [by left | done | done].
Qed.

(** A loop whose rounds all return the accumulator they were given. *)
Lemma for_each_unchanged {A B} (P : event -> Prop) (body : A -> B -> io A)
    (l : list B) acc :
  (forall x, x ∈ l ->
     result (body acc x) = Some acc /\ Forall P (log (body acc x))) ->
  result (for_each body l acc) = Some acc
  /\ Forall P (log (for_each body l acc)).
Proof.
  induction l as [|x l IH]; intros Hbody; [by split; [|constructor]|].
  destruct (Hbody x ltac:(by left)) as [Hx Hlog].
  destruct IH as [IHres IHlog]; [intros y Hy; apply Hbody; by right|].
  cbn [for_each]. rewrite (bind_Some _ _ _ Hx). cbn [log result].
  split; [done|]. by apply Forall_app.
Qed.

(** A round that raises ends the loop: the rounds after it are not run. *)
Lemma for_each_abort {A B} (body : A -> B -> io A) (before after : list B)
    (x : B) acc acc1 :
  result (for_each body before acc) = Some acc1 ->
  result (body acc1 x) = None ->
  for_each body (before ++ x :: after) acc
  = IO (log (for_each body before acc) ++ log (body acc1 x)) None.
Proof.
  revert acc. induction before as [|y before IH]; intros acc; simpl.
  - intros [= <-] Hx. by rewrite (bind_None _ _ Hx).
  - rewrite bind_result.
    destruct (result (body acc y)) as [acc2|] eqn:Hy; [|done]. simpl.
    intros Hbefore Hx. rewrite !(bind_Some _ _ _ Hy), (IH _ Hbefore Hx).
    cbn [log result]. by rewrite app_assoc.
Qed.

Section DocumentInFull.

Context {Inputs Outputs : Type}.
Variable cv2_imdecode : bytes -> option MatLike.
Variable Image_open : bytes -> option Image.
Variable cv2_rectangle : MatLike -> Z * Z -> Z * Z -> Z * Z * Z -> Z -> MatLike.
Variable cv2_imencode : string -> MatLike -> option bytes.
Variable fitz_open : bytes -> option PDFMasker.Document.
Variable fitz_Pixmap : bytes -> option PDFMasker.ImageObj.
Variable tobytes : PDFMasker.Document -> bytes.
Variable self : PDFMasker.t Inputs Outputs.

Local Abbreviation mask_embedded_image :=
  (PDFMasker.mask_embedded_image cv2_imdecode Image_open cv2_rectangle
     cv2_imencode fitz_Pixmap self).

Local Abbreviation mask_page :=
  (PDFMasker.mask_page cv2_imdecode Image_open cv2_rectangle cv2_imencode
     fitz_Pixmap self).

Local Abbreviation mask_data :=
  (PDFMasker.mask_data cv2_imdecode Image_open cv2_rectangle cv2_imencode
     fitz_open fitz_Pixmap tobytes self).

Local Abbreviation engine_mask_data :=
  (ImageMasker.mask_data (PDFMasker.image_masker self) cv2_imdecode Image_open
     cv2_rectangle cv2_imencode).

(** A step returns the document it was given, or that document with the
    object of the image replaced. *)
Lemma mask_embedded_image_inv should_draw_gizmos page_width page_height
    pdf_document xref pdf_document' :
  result (mask_embedded_image should_draw_gizmos page_width page_height
            pdf_document xref) = Some pdf_document' ->
  pdf_document' = pdf_document
  \/ exists image_obj pixmap : PDFMasker.ImageObj,
       PDFMasker.objects pdf_document !! xref = Some image_obj
       /\ pdf_document' = PDFMasker.replace_image pdf_document xref pixmap.
Proof.
  unfold PDFMasker.mask_embedded_image. rewrite bind_emit. cbn [result].
  rewrite bind_result. cbn [lift result].
  destruct (PDFMasker.objects pdf_document !! xref) as [image_obj|]; [|done].
  cbn [mbind option_bind].
  destruct (PDFMasker.skipped image_obj); [intros [= <-]; by left|].
  rewrite bind_emit. cbn [result]. rewrite bind_result. cbn [lift result].
  destruct (Image_open _) as [image|]; [|done]. cbn [mbind option_bind].
  rewrite bind_result. destruct (result (ImageMasker.mask_data _ _ _ _ _ _ _ _ _))
    as [[encoded amount]|]; [|done].
  cbn [mbind option_bind]. destruct (0 <? amount); [|intros [= <-]; by left].
  rewrite bind_result. cbn [lift result].
  destruct (fitz_Pixmap encoded) as [pixmap|]; [|done].
  cbn. intros [= <-]. right. by exists image_obj, pixmap.
Qed.

Lemma mask_embedded_image_kept should_draw_gizmos page_width page_height
    pdf_document d xref d' :
  xref ∈ shown pdf_document -> kept pdf_document d ->
  result (mask_embedded_image should_draw_gizmos page_width page_height d xref)
  = Some d' ->
  kept pdf_document d'.
Proof.
  intros Hshown (Hpages & Hdom & Hframe)
    [->|(image_obj & pixmap & Hobj & ->)]%mask_embedded_image_inv; [done|].
  split; [done|]. split.
  - cbn. rewrite dom_insert_L, <- Hdom.
    apply subseteq_union_1_L, singleton_subseteq_l. by eapply elem_of_dom_2.
  - intros other Hother. cbn. rewrite lookup_insert_ne; [by apply Hframe|].
    by intros ->.
Qed.

Lemma pages_loop_kept should_draw_gizmos pdf_document pdf_document' :
  result (for_each (mask_page should_draw_gizmos)
            (seq 0 (length (PDFMasker.pages pdf_document))) pdf_document)
  = Some pdf_document' ->
  kept pdf_document pdf_document'.
Proof.
  apply (for_each_invariant (kept pdf_document)); [|done].
  intros d page_number d' Hd. unfold PDFMasker.mask_page.
  rewrite bind_result. cbn [lift result].
  destruct (PDFMasker.pages d !! page_number) as [page|] eqn:Hpage; [|done].
  cbn [mbind option_bind].
  apply (for_each_invariant_elem (kept pdf_document)); [|done].
  intros d1 xref d2 Hxref. apply mask_embedded_image_kept.
  unfold shown. apply list_elem_of_In, in_flat_map. exists page.
  destruct Hd as (Hpages & _). rewrite Hpages in Hpage.
  split; apply list_elem_of_In; [by eapply list_elem_of_lookup_2 | done].
Qed.

(** X15. Whatever [mask_data] returns is the serialisation of the opened
    document with some image objects replaced: the pages are the same, no
    xref is added or removed, and the object of every xref that no page
    shows is the one of the opened document. *)
Theorem mask_data_keeps_document pdf_as_bytes should_draw_gizmos modified :
  result (mask_data pdf_as_bytes should_draw_gizmos) = Some modified ->
  exists pdf_document pdf_document' : PDFMasker.Document,
    fitz_open pdf_as_bytes = Some pdf_document
    /\ modified = tobytes pdf_document'
    /\ PDFMasker.pages pdf_document' = PDFMasker.pages pdf_document
    /\ dom (PDFMasker.objects pdf_document')
       = dom (PDFMasker.objects pdf_document)
    /\ forall xref : Z, xref ∉ shown pdf_document ->
         PDFMasker.objects pdf_document' !! xref
         = PDFMasker.objects pdf_document !! xref.
Proof.
  unfold PDFMasker.mask_data. rewrite bind_result. cbn [lift result].
  destruct (fitz_open pdf_as_bytes) as [pdf_document|]; [|done].
  cbn [mbind option_bind]. rewrite bind_result.
  destruct (result (for_each _ _ _)) as [pdf_document'|] eqn:Hloop; [|done].
  cbn. intros [= <-]. exists pdf_document, pdf_document'.
  split; [done|]. split; [done|]. by apply (pages_loop_kept should_draw_gizmos).
Qed.

(** X16. On a document all of whose shown images are skipped (soft mask and
    neither PNG nor GIF), and so on a document without images, [mask_data]
    returns the serialisation of the document as it was opened, and the
    only calls it makes are extractions. *)
Theorem all_skipped_document_unchanged pdf_as_bytes should_draw_gizmos
    pdf_document :
  fitz_open pdf_as_bytes = Some pdf_document ->
  (forall xref : Z, xref ∈ shown pdf_document ->
     exists image_obj : PDFMasker.ImageObj,
       PDFMasker.objects pdf_document !! xref = Some image_obj
       /\ PDFMasker.skipped image_obj = true) ->
  result (mask_data pdf_as_bytes should_draw_gizmos)
  = Some (tobytes pdf_document)
  /\ Forall is_extraction (log (mask_data pdf_as_bytes should_draw_gizmos)).
Proof.
  intros Hopen Hskipped. unfold PDFMasker.mask_data.
  rewrite Hopen, bind_lift_Some.
  destruct (for_each_unchanged is_extraction (mask_page should_draw_gizmos)
              (seq 0 (length (PDFMasker.pages pdf_document))) pdf_document)
    as [Hres Hlog].
  { intros page_number Hin. unfold PDFMasker.mask_page.
    destruct (PDFMasker.pages pdf_document !! page_number) as [page|] eqn:Hpage.
    - rewrite bind_lift_Some. apply for_each_unchanged. intros xref Hxref.
      destruct (Hskipped xref) as (image_obj & Hobj & Hskip).
      { unfold shown. apply list_elem_of_In, in_flat_map. exists page.
        split; apply list_elem_of_In; [by eapply list_elem_of_lookup_2 | done]. }
      rewrite (mask_embedded_image_skipped _ _ _ _ _ _ _ _ _ _ _ image_obj Hobj Hskip).
      split; [done|]. by repeat constructor.
    - (* no such page: [seq] stays below the number of pages *)
      exfalso. apply lookup_ge_None in Hpage.
      apply elem_of_seq in Hin. lia. }
  rewrite (bind_Some _ _ _ Hres). cbn [log result mret io_ret].
  split; [done|]. by rewrite app_nil_r.
Qed.

(** X17. A step that raises ends the loop over the images of its page:
    [mask_page] raises, having made the calls of the steps before and of the
    failing step only; the images listed after it are not even extracted. *)
Theorem failure_aborts_page should_draw_gizmos pdf_document page_number page
    before xref after d :
  PDFMasker.pages pdf_document !! page_number = Some page ->
  PDFMasker.get_images page = before ++ xref :: after ->
  result (for_each
            (mask_embedded_image should_draw_gizmos
               (PDFMasker.mediabox_width page) (PDFMasker.mediabox_height page))
            before pdf_document) = Some d ->
  result (mask_embedded_image should_draw_gizmos
            (PDFMasker.mediabox_width page) (PDFMasker.mediabox_height page)
            d xref) = None ->
  mask_page should_draw_gizmos pdf_document page_number
  = IO (log (for_each
               (mask_embedded_image should_draw_gizmos
                  (PDFMasker.mediabox_width page)
                  (PDFMasker.mediabox_height page))
               before pdf_document)
        ++ log (mask_embedded_image should_draw_gizmos
                  (PDFMasker.mediabox_width page)
                  (PDFMasker.mediabox_height page) d xref))
       None.
Proof.
  intros Hpage Himages Hbefore Hfail. unfold PDFMasker.mask_page.
  rewrite Hpage, bind_lift_Some, Himages. by apply for_each_abort.
Qed.

(** X18. A page that raises makes [mask_data] raise: no bytes are returned
    for the document, not even for the pages already masked, and the pages
    after the failing one are not processed. *)
Theorem failure_aborts_document pdf_as_bytes should_draw_gizmos pdf_document
    (page_number : nat) d :
  fitz_open pdf_as_bytes = Some pdf_document ->
  (page_number < length (PDFMasker.pages pdf_document))%nat ->
  result (for_each (mask_page should_draw_gizmos) (seq 0 page_number)
            pdf_document) = Some d ->
  result (mask_page should_draw_gizmos d page_number) = None ->
  mask_data pdf_as_bytes should_draw_gizmos
  = IO (log (for_each (mask_page should_draw_gizmos) (seq 0 page_number)
               pdf_document)
        ++ log (mask_page should_draw_gizmos d page_number))
       None.
Proof.
  intros Hopen Hlt Hbefore Hfail. unfold PDFMasker.mask_data.
  rewrite Hopen, bind_lift_Some.
  replace (length (PDFMasker.pages pdf_document))
    with (page_number + S (length (PDFMasker.pages pdf_document) - S page_number))%nat
    by lia.
  rewrite seq_app. cbn [seq Nat.add].
  rewrite (for_each_abort _ _ _ _ _ _ Hbefore Hfail).
  by rewrite bind_None.
Qed.

(** X19. When the engine reports masked areas but [fitz.Pixmap] rejects the
    bytes it returned, the step raises and [replace_image] is not called. *)
Theorem pixmap_failure_raises should_draw_gizmos page_width page_height
    pdf_document xref image_obj image encoded amount :
  PDFMasker.objects pdf_document !! xref = Some image_obj ->
  PDFMasker.skipped image_obj = false ->
  Image_open (PDFMasker.obj_image image_obj) = Some image ->
  result (engine_mask_data (PDFMasker.obj_image image_obj) ".png"
            (negb (PDFMasker.is_overlapping_full_page image page_width page_height))
            should_draw_gizmos)
  = Some (encoded, amount) ->
  0 < amount ->
  fitz_Pixmap encoded = None ->
  result (mask_embedded_image should_draw_gizmos page_width page_height
            pdf_document xref) = None
  /\ Forall (fun e => ~ is_replacement e)
       (log (mask_embedded_image should_draw_gizmos page_width page_height
               pdf_document xref)).
Proof.
  intros Hobj Hskip Himage Hmask Hpos Hpixmap.
  rewrite (mask_embedded_image_masked cv2_imdecode Image_open cv2_rectangle
             cv2_imencode fitz_Pixmap self _ _ _ _ _ _ _ _ _ Hobj Hskip Himage
             Hmask).
  cbn [log result]. rewrite Hpixmap.
  replace (0 <? amount) with true by (symmetry; by apply Z.ltb_lt).
  split; [done|]. rewrite app_nil_r.
  destruct (mask_data_log_engine (PDFMasker.image_masker self) cv2_imdecode
              Image_open cv2_rectangle cv2_imencode
              (PDFMasker.obj_image image_obj) ".png"
              (negb (PDFMasker.is_overlapping_full_page image page_width
                       page_height))
              should_draw_gizmos) as (rest & -> & Hrest).
  do 3 (constructor; [by intros []|]).
  eapply Forall_impl; [exact Hrest|]. intros e He Hr. by destruct e.
Qed.

End DocumentInFull.

Lemma mask_data_keeps_document_witness :
  exists pdf_document pdf_document' : PDFMasker.Document,
    demo_fitz_open [] = Some pdf_document
    /\ [Byte.x01; Byte.x00; Byte.x00; Byte.x00; Byte.x00; Byte.x00; Byte.x00]
       = demo_tobytes pdf_document'
    /\ PDFMasker.pages pdf_document' = PDFMasker.pages pdf_document
    /\ dom (PDFMasker.objects pdf_document')
       = dom (PDFMasker.objects pdf_document)
    /\ forall xref : Z, xref ∉ shown pdf_document ->
         PDFMasker.objects pdf_document' !! xref
         = PDFMasker.objects pdf_document !! xref.
Proof.
  apply (mask_data_keeps_document demo_imdecode demo_Image_open demo_rectangle
           demo_imencode demo_fitz_open demo_Pixmap demo_tobytes
           demo_pdf_masker [] false).
  vm_compute. reflexivity.
Defined.

Lemma all_skipped_document_unchanged_witness :
  result (PDFMasker.mask_data demo_imdecode demo_Image_open demo_rectangle
            demo_imencode (fun _ => Some demo_skipped_document) demo_Pixmap
            demo_tobytes demo_pdf_masker [] false)
  = Some (demo_tobytes demo_skipped_document)
  /\ Forall is_extraction
       (log (PDFMasker.mask_data demo_imdecode demo_Image_open demo_rectangle
               demo_imencode (fun _ => Some demo_skipped_document) demo_Pixmap
               demo_tobytes demo_pdf_masker [] false)).
Proof.
  apply (all_skipped_document_unchanged demo_imdecode demo_Image_open
           demo_rectangle demo_imencode (fun _ => Some demo_skipped_document)
           demo_Pixmap demo_tobytes demo_pdf_masker [] false
           demo_skipped_document); [reflexivity|].
  intros xref ->%list_elem_of_singleton. exists demo_soft_masked.
  split; reflexivity.
Defined.

Lemma failure_aborts_page_witness :
  exists d : PDFMasker.Document,
    PDFMasker.mask_page demo_imdecode demo_Image_open demo_rectangle
      demo_imencode demo_Pixmap demo_pdf_masker false demo_broken_document 0
    = IO (log (for_each
                 (PDFMasker.mask_embedded_image demo_imdecode demo_Image_open
                    demo_rectangle demo_imencode demo_Pixmap demo_pdf_masker
                    false 100 100)
                 [8] demo_broken_document)
          ++ log (PDFMasker.mask_embedded_image demo_imdecode demo_Image_open
                    demo_rectangle demo_imencode demo_Pixmap demo_pdf_masker
                    false 100 100 d 9))
         None.
Proof.
  eexists.
  apply (failure_aborts_page demo_imdecode demo_Image_open demo_rectangle
           demo_imencode demo_Pixmap demo_pdf_masker false demo_broken_document
           0
           {| PDFMasker.mediabox_width := 100; PDFMasker.mediabox_height := 100;
              PDFMasker.get_images := [8; 9; 7] |}
           [8] 9 [7]); reflexivity.
Defined.

Lemma failure_aborts_document_witness :
  PDFMasker.mask_data demo_imdecode demo_Image_open demo_rectangle
    demo_imencode (fun _ => Some demo_broken_document) demo_Pixmap demo_tobytes
    demo_pdf_masker [] false
  = IO (log (for_each
               (PDFMasker.mask_page demo_imdecode demo_Image_open demo_rectangle
                  demo_imencode demo_Pixmap demo_pdf_masker false)
               (seq 0 0) demo_broken_document)
        ++ log (PDFMasker.mask_page demo_imdecode demo_Image_open
                  demo_rectangle demo_imencode demo_Pixmap demo_pdf_masker
                  false demo_broken_document 0))
       None.
Proof.
  apply (failure_aborts_document demo_imdecode demo_Image_open demo_rectangle
           demo_imencode (fun _ => Some demo_broken_document) demo_Pixmap
           demo_tobytes demo_pdf_masker [] false demo_broken_document 0
           demo_broken_document); [reflexivity | simpl; lia | reflexivity
                                  | reflexivity].
Defined.

(** The failing page of the broken document: image 8 is masked and
    replaced, image 9 cannot be opened, image 7 is never extracted. *)
Example mask_page_broken_document :
  PDFMasker.mask_page demo_imdecode demo_Image_open demo_rectangle
    demo_imencode demo_Pixmap demo_pdf_masker false demo_broken_document 0
  = IO [EvExtractImage 8; EvImageOpen [Byte.x02];
        EvMaskData [Byte.x02] ".png" true false;
        EvImdecode [Byte.x02]; EvImageOpen [Byte.x02];
        EvDetectMultiScale 0 (demo_mat 2 3); EvImencode ".png";
        EvReplaceImage 8 [Byte.x00; Byte.x00; Byte.x00; Byte.x00; Byte.x00; Byte.x00];
        EvExtractImage 9; EvImageOpen []]
       None.
Proof. by vm_compute. Qed.

Lemma pixmap_failure_raises_witness :
  result (PDFMasker.mask_embedded_image demo_imdecode demo_Image_open
            demo_rectangle demo_imencode (fun _ => None) demo_pdf_masker false
            100 100 demo_document 8) = None
  /\ Forall (fun e => ~ is_replacement e)
       (log (PDFMasker.mask_embedded_image demo_imdecode demo_Image_open
               demo_rectangle demo_imencode (fun _ => None) demo_pdf_masker
               false 100 100 demo_document 8)).
Proof.
  apply (pixmap_failure_raises demo_imdecode demo_Image_open demo_rectangle
           demo_imencode (fun _ => None) demo_pdf_masker false 100 100
           demo_document 8 demo_plain
           {| size := (3, 2); mode := "RGB"; source := [Byte.x02] |}
           [Byte.x00; Byte.x00; Byte.x00; Byte.x00; Byte.x00; Byte.x00] 1);
    try reflexivity; try (vm_compute; reflexivity).
Defined.

(** ** The routes *)

Lemma try_except_eq {A} (body handler : io A) :
  try_except body handler
  = match result body with
    | Some a => IO (log body) (Some a)
    | None => IO (log body ++ log handler) (result handler)
    end.
Proof.
  unfold try_except. destruct (result body) eqn:Hbody; [|done].
  by rewrite <- Hbody, io_eta.
Qed.

(** X20. The [gizmos] argument is read with [bool]: it is on exactly when
    the argument is present with a non-empty value, whatever the value
    (so also for the value "false"), and off when it is absent. *)
Theorem gizmos_on_iff_non_empty (query : gmap string string) :
  masking.args_get query "gizmos" false masking.py_bool = true
  <-> exists value : string, query !! "gizmos" = Some value /\ value <> "".
Proof.
  unfold masking.args_get, masking.py_bool.
  destruct (query !! "gizmos") as [value|].
  - rewrite negb_true_iff, bool_decide_eq_false. split.
    + intros Hne. by exists value.
    + by intros (v & [= <-] & Hne).
  - split; [done|]. by intros (v & [=] & _).
Qed.

Section Routes.

Context {Inputs Outputs : Type}.
Variable cv2_imdecode : bytes -> option MatLike.
Variable Image_open : bytes -> option Image.
Variable cv2_rectangle : MatLike -> Z * Z -> Z * Z -> Z * Z * Z -> Z -> MatLike.
Variable cv2_imencode : string -> MatLike -> option bytes.
Variable guess_extension : string -> option string.
Variable fitz_open : bytes -> option PDFMasker.Document.
Variable fitz_Pixmap : bytes -> option PDFMasker.ImageObj.
Variable tobytes : PDFMasker.Document -> bytes.
Variable cascade_classifiers : list (MatLike -> list Rect).
Variable detection_model : Inputs -> option Outputs.
Variable image_processor : ImageMasker.ImageProcessor Inputs Outputs.

Local Abbreviation mask_image :=
  (masking.mask_image cv2_imdecode Image_open cv2_rectangle cv2_imencode
     guess_extension cascade_classifiers detection_model image_processor).

Local Abbreviation mask_pdf :=
  (masking.mask_pdf cv2_imdecode Image_open cv2_rectangle cv2_imencode
     fitz_open fitz_Pixmap tobytes cascade_classifiers detection_model
     image_processor).

Local Abbreviation image_masker :=
  (ImageMasker.init cascade_classifiers detection_model image_processor).

(** The masking call of the image route. *)
Local Abbreviation image_call request file :=
  (ImageMasker.mask_file image_masker cv2_imdecode Image_open cv2_rectangle
     cv2_imencode guess_extension file false
     (masking.args_get (masking.args request) "gizmos" false masking.py_bool)).

(** The masking call of the PDF route. *)
Local Abbreviation pdf_call request file :=
  (PDFMasker.mask_data cv2_imdecode Image_open cv2_rectangle cv2_imencode
     fitz_open fitz_Pixmap tobytes (PDFMasker.init image_masker) (stream file)
     (masking.args_get (masking.args request) "gizmos" false masking.py_bool)).

(** X21. Both routes answer 400 "No file uploaded." to a request without a
    file or with a file without name, and 415 to a named file of another
    content type than theirs; the name is checked before the type, and in
    neither case is anything decoded, detected or opened. *)
Theorem uploads_are_validated_first (request : masking.Request) :
  (masking.files request !! "file" = None
   \/ filename <$> masking.files request !! "file" = Some "" ->
   mask_image request
   = IO [] (Some (masking.JsonResponse false (Some "No file uploaded.") 400 400))
   /\ mask_pdf request
      = IO [] (Some (masking.JsonResponse false (Some "No file uploaded.")
                       400 400)))
  /\ (forall file : FileStorage,
        masking.files request !! "file" = Some file -> filename file <> "" ->
        (content_type file ∉ masking.ALLOWED_IMAGE_TYPES ->
         mask_image request
         = IO [] (Some (masking.JsonResponse false
                          (Some "Unsupported file type. Only JPEG, PNG, and GIF images are allowed.")
                          415 415)))
        /\ (content_type file <> "application/pdf" ->
            mask_pdf request
            = IO [] (Some (masking.JsonResponse false
                             (Some "Unsupported file type. Only PDF files are allowed.")
                             415 415)))).
Proof.
  split.
  - intros Hmissing. unfold masking.mask_image, masking.mask_pdf.
    assert (bool_decide (masking.files request !! "file" = None)
            || bool_decide (filename <$> masking.files request !! "file" = Some "")
            = true) as ->; [|done].
    apply orb_true_iff. destruct Hmissing; [left | right];
      by apply bool_decide_eq_true.
  - intros file Hfile Hname. unfold masking.mask_image, masking.mask_pdf.
    assert (bool_decide (masking.files request !! "file" = None)
            || bool_decide (filename <$> masking.files request !! "file" = Some "")
            = false) as ->.
    { apply orb_false_iff. rewrite Hfile.
      split; apply bool_decide_eq_false; [done|]. cbn. congruence. }
    rewrite Hfile, !bind_lift_Some. split; intros Htype.
    + by rewrite (bool_decide_eq_false_2 _ Htype).
    + by rewrite (bool_decide_eq_false_2 _ Htype).
Qed.

(** X22. The image route, on a named upload of an allowed type, answers
    with the masked bytes as an attachment of the type and the name of the
    upload when [mask_file] returns, whatever the count, and with a 500 JSON
    answer when [mask_file] raises; its calls are those of [mask_file], which
    is run without [allow_full_mask]. *)
Theorem mask_image_answer (request : masking.Request) (file : FileStorage) :
  masking.files request !! "file" = Some file -> filename file <> "" ->
  content_type file ∈ masking.ALLOWED_IMAGE_TYPES ->
  mask_image request
  = IO (log (image_call request file))
       (Some match result (image_call request file) with
             | Some (data, _) =>
                 masking.FileResponse data (content_type file) (filename file)
             | None => masking.JsonResponse false None 500 500
             end).
Proof.
  intros Hfile Hname Htype. unfold masking.mask_image.
  assert (bool_decide (masking.files request !! "file" = None)
          || bool_decide (filename <$> masking.files request !! "file" = Some "")
          = false) as ->.
  { apply orb_false_iff. rewrite Hfile.
    split; apply bool_decide_eq_false; [done|]. cbn. congruence. }
  rewrite Hfile, bind_lift_Some, (bool_decide_eq_true_2 _ Htype). cbn [negb].
  rewrite try_except_eq.
  destruct (result (image_call request file)) as [[data amount]|] eqn:Hcall.
  - rewrite (bind_Some _ _ _ Hcall). cbn. by rewrite !app_nil_r.
  - rewrite (bind_None _ _ Hcall). cbn. by rewrite !app_nil_r.
Qed.

(** X23. The image route never lets an exception out: every request gets a
    response. *)
Theorem mask_image_never_raises (request : masking.Request) :
  exists response : masking.Response,
    result (mask_image request) = Some response.
Proof.
  destruct (masking.files request !! "file") as [file|] eqn:Hfile.
  - destruct (decide (filename file = "")) as [Hname|Hname].
    + destruct (uploads_are_validated_first request) as [H400 _].
      destruct H400 as [-> _].
      { right. rewrite Hfile. cbn. by rewrite Hname. }
      by eexists.
    + destruct (decide (content_type file ∈ masking.ALLOWED_IMAGE_TYPES))
        as [Htype|Htype].
      * rewrite (mask_image_answer request file Hfile Hname Htype). by eexists.
      * destruct (uploads_are_validated_first request) as [_ H415].
        destruct (H415 file Hfile Hname) as [H _]. rewrite (H Htype). by eexists.
  - destruct (uploads_are_validated_first request) as [H400 _].
    destruct (H400 ltac:(by left)) as [-> _]. by eexists.
Qed.

(** X24. The PDF route has no handler of its own: on a named upload of type
    application/pdf it makes the calls of the document masker and raises
    when the masker raises; when the masker returns, it answers with the
    masked bytes as an attachment of the type and the name of the upload. *)
Theorem mask_pdf_answer (request : masking.Request) (file : FileStorage) :
  masking.files request !! "file" = Some file -> filename file <> "" ->
  content_type file = "application/pdf" ->
  mask_pdf request
  = IO (log (pdf_call request file))
       ((fun data => masking.FileResponse data "application/pdf" (filename file))
        <$> result (pdf_call request file)).
Proof.
  intros Hfile Hname Htype. unfold masking.mask_pdf.
  assert (bool_decide (masking.files request !! "file" = None)
          || bool_decide (filename <$> masking.files request !! "file" = Some "")
          = false) as ->.
  { apply orb_false_iff. rewrite Hfile.
    split; apply bool_decide_eq_false; [done|]. cbn. congruence. }
  rewrite Hfile, bind_lift_Some, (bool_decide_eq_true_2 _ Htype). cbn [negb].
  unfold PDFMasker.mask_file, read. rewrite Htype.
  destruct (result (pdf_call request file)) as [data|] eqn:Hcall.
  - rewrite (bind_Some _ _ _ Hcall). cbn. by rewrite app_nil_r.
  - by rewrite (bind_None _ _ Hcall).
Qed.

End Routes.

Lemma mask_image_answer_witness :
  exists data : bytes,
    result
      (masking.mask_image demo_imdecode demo_Image_open demo_rectangle
         demo_imencode demo_guess_extension [whole_image_detector]
         (fun _ : unit => Some tt)
         (fixed_processor [(9 # 10, 1%Z, (0, 0, 2, 1))]%Q)
         (demo_request (demo_upload "face.png" "image/png" [Byte.x01])
            {[ "gizmos" := "false" ]}))
    = Some (masking.FileResponse data "image/png" "face.png").
Proof.
  eexists.
  rewrite (mask_image_answer demo_imdecode demo_Image_open demo_rectangle
             demo_imencode demo_guess_extension [whole_image_detector]
             (fun _ : unit => Some tt)
             (fixed_processor [(9 # 10, 1%Z, (0, 0, 2, 1))]%Q)
             (demo_request (demo_upload "face.png" "image/png" [Byte.x01])
                {[ "gizmos" := "false" ]})
             (demo_upload "face.png" "image/png" [Byte.x01]));
    [vm_compute; reflexivity | reflexivity | discriminate | by vm_compute].
Defined.

(** The value "false" of [gizmos] turns the gizmos on: the engine is entered
    with [should_draw_gizmos] set, and without [allow_full_mask]. *)
Example mask_image_gizmos_false :
  hd_error
    (log (masking.mask_image demo_imdecode demo_Image_open demo_rectangle
            demo_imencode demo_guess_extension [whole_image_detector]
            (fun _ : unit => Some tt)
            (fixed_processor [(9 # 10, 1%Z, (0, 0, 2, 1))]%Q)
            (demo_request (demo_upload "face.png" "image/png" [Byte.x01])
               {[ "gizmos" := "false" ]})))
  = Some (EvMaskData [Byte.x01] ".png" false true).
Proof. by vm_compute. Qed.

Lemma mask_pdf_answer_witness :
  masking.mask_pdf demo_imdecode demo_Image_open demo_rectangle demo_imencode
    demo_fitz_open demo_Pixmap demo_tobytes [whole_image_detector]
    (fun _ : unit => Some tt) (fixed_processor [])
    (demo_request (demo_upload "cv.pdf" "application/pdf" [Byte.x05]) ∅)
  = IO [EvExtractImage 7;
        EvExtractImage 8; EvImageOpen [Byte.x02];
        EvMaskData [Byte.x02] ".png" true false;
        EvImdecode [Byte.x02]; EvImageOpen [Byte.x02];
        EvDetectMultiScale 0 (demo_mat 2 3);
        EvImencode ".png";
        EvReplaceImage 8 [Byte.x00; Byte.x00; Byte.x00; Byte.x00; Byte.x00; Byte.x00]]
       (Some (masking.FileResponse
                [Byte.x01; Byte.x00; Byte.x00; Byte.x00; Byte.x00; Byte.x00; Byte.x00]
                "application/pdf" "cv.pdf")).
Proof.
  rewrite (mask_pdf_answer demo_imdecode demo_Image_open demo_rectangle
             demo_imencode demo_fitz_open demo_Pixmap demo_tobytes
             [whole_image_detector] (fun _ : unit => Some tt) (fixed_processor [])
             (demo_request (demo_upload "cv.pdf" "application/pdf" [Byte.x05]) ∅)
             (demo_upload "cv.pdf" "application/pdf" [Byte.x05]));
    [by vm_compute | reflexivity | discriminate | reflexivity].
Defined.
